(** * Design Tutor API: the guide generator of [main.py]

    A shallow embedding of the request handlers and the two utilities of
    [src/main.py] ([_detect_design], [_build_steps], [generate_guide],
    [create_template]) and the properties stated about them.

    Modelling conventions.
    - A Python [str] is a [string]; [str.lower] acts on the letters A-Z.
    - A Python [int] is a [Z]; [str(int)] is its decimal notation.
    - The design dictionary ([Dict[str, Any]]) is a record with one optional
      field per key that the code reads; [None] is an absent key.  Lists stay
      lists of any length and the inner dictionaries are association lists,
      so that subscripts can fail as they do in Python.
    - A Python exception is a value of [exn]; code that may raise lives in the
      error monad [result]. *)

From Stdlib Require Import String Ascii List ZArith Bool Lia.
From Stdlib Require Import DecimalString.
Import ListNotations.

Local Open Scope list_scope.
Local Open Scope string_scope.

(* ------------------------------------------------------------------------- *)
(** ** Exceptions and the error monad *)

Inductive exn : Type :=
| KeyError (key : string)
| IndexError
| Exception (msg : string).

(** [str(e)] *)
Definition exn_str (e : exn) : string :=
  match e with
  | KeyError k => "'" ++ k ++ "'"
  | IndexError => "list index out of range"
  | Exception msg => msg
  end.

Inductive result (A : Type) : Type :=
| Ok (a : A)
| Raise (e : exn).

Arguments Ok {A} a.
Arguments Raise {A} e.

Definition bind {A B : Type} (m : result A) (k : A -> result B) : result B :=
  match m with
  | Ok a => k a
  | Raise e => Raise e
  end.

Notation "x <- m ;; k" := (bind m (fun x => k))
  (at level 61, m at next level, right associativity).

(* ------------------------------------------------------------------------- *)
(** ** Python strings *)

Module Str.

(** [c.lower()] for one character. *)
Definition lower_ascii (c : ascii) : ascii :=
  let n := nat_of_ascii c in
  if (65 <=? n)%nat && (n <=? 90)%nat then ascii_of_nat (n + 32) else c.

(** [s.lower()] *)
Fixpoint lower (s : string) : string :=
  match s with
  | EmptyString => EmptyString
  | String c s' => String (lower_ascii c) (lower s')
  end.

(** [s.startswith(k)] *)
Fixpoint startswith (k s : string) : bool :=
  match k, s with
  | EmptyString, _ => true
  | String _ _, EmptyString => false
  | String a k', String b s' => Ascii.eqb a b && startswith k' s'
  end.

(** [k in s]: [k] occurs in [s] as a contiguous substring. *)
Fixpoint contains (k s : string) : bool :=
  startswith k s ||
  match s with
  | EmptyString => false
  | String _ s' => contains k s'
  end.

(** [str(n)] for an [int]. *)
Definition of_int (n : Z) : string := NilZero.string_of_int (Z.to_int n).

End Str.

(** [any(k in s for k in ks)] *)
Definition any_in (ks : list string) (s : string) : bool :=
  existsb (fun k => Str.contains k s) ks.

(* ------------------------------------------------------------------------- *)
(** ** Python lists and dictionaries *)

(** [l[i]], with Python's negative subscripts. *)
Definition list_getitem {A : Type} (l : list A) (i : Z) : result A :=
  let n := Z.of_nat (length l) in
  let j := if (i <? 0)%Z then (i + n)%Z else i in
  if (j <? 0)%Z || (n <=? j)%Z then Raise IndexError
  else match nth_error l (Z.to_nat j) with
       | Some a => Ok a
       | None => Raise IndexError
       end.

(** A dictionary with string keys, in insertion order. *)
Definition dict (V : Type) : Type := list (string * V).

(** [d.get(k)] *)
Fixpoint dict_lookup {V : Type} (d : dict V) (k : string) : option V :=
  match d with
  | [] => None
  | (k', v) :: d' => if String.eqb k' k then Some v else dict_lookup d' k
  end.

(** [d.get(k, default)] *)
Definition dict_get {V : Type} (d : dict V) (k : string) (default : V) : V :=
  match dict_lookup d k with
  | Some v => v
  | None => default
  end.

(** [d[k]] *)
Definition dict_getitem {V : Type} (d : dict V) (k : string) : result V :=
  match dict_lookup d k with
  | Some v => Ok v
  | None => Raise (KeyError k)
  end.

(** [d[k] = v]: an existing key keeps its place, a new key goes last. *)
Fixpoint dict_setitem {V : Type} (d : dict V) (k : string) (v : V) : dict V :=
  match d with
  | [] => [(k, v)]
  | (k', v') :: d' =>
      if String.eqb k' k then (k', v) :: d' else (k', v') :: dict_setitem d' k v
  end.

(* ------------------------------------------------------------------------- *)
(** ** The design dictionary *)

(** The dictionary built by [_detect_design] and read by [_build_steps]. *)
Record DesignSpec : Type := mkDesignSpec {
  layout : option string;
  palette : option (list string);
  fonts : option (list string);
  structure : option (list (dict string))
}.

(** [d[key]] for a key of the design dictionary. *)
Definition field {A : Type} (key : string) (v : option A) : result A :=
  match v with
  | Some a => Ok a
  | None => Raise (KeyError key)
  end.

(* ------------------------------------------------------------------------- *)
(** ** [_detect_design] *)

Definition story_keywords : list string :=
  ["story"; "reel"; "vertical"; "instagram story"].
Definition square_keywords : list string := ["square"; "instagram"; "post"].
Definition a4_keywords : list string := ["a4"; "flyer"; "print"].
Definition palette_keywords : list string := ["tech"; "futur"; "robot"].

Definition palette_A : list string := ["#0B0F1A"; "#FF7A00"; "#FFFFFF"].
Definition palette_B : list string := ["#111827"; "#E5E7EB"; "#FF4D4D"].
Definition fonts_A : list string := ["Inter"; "Manrope"].
Definition fonts_B : list string := ["Poppins"; "Montserrat"].

Definition detect_layout (name_l : string) : string :=
  if any_in story_keywords name_l then "story"
  else if any_in square_keywords name_l then "square"
  else if any_in a4_keywords name_l then "a4"
  else "poster".

Definition detect_structure (name_l layout : string) : list (dict string) :=
  [ [("type", "background");
     ("style", if Str.contains "grad" name_l then "gradient" else "solid")];
    [("type", "image");
     ("position", if negb (String.eqb layout "story") then "center" else "top")];
    [("type", "headline"); ("weight", "700"); ("case", "upper")];
    [("type", "subhead"); ("weight", "500")];
    [("type", "cta"); ("variant", "pill")] ].

Definition _detect_design (name : string) : DesignSpec :=
  let name_l := Str.lower name in
  let layout := detect_layout name_l in
  let palette :=
    if any_in palette_keywords name_l then palette_A else palette_B in
  let fonts :=
    if Str.contains "modern" name_l || Str.contains "tech" name_l
    then fonts_A else fonts_B in
  let structure := detect_structure name_l layout in
  {| layout := Some layout;
     palette := Some palette;
     fonts := Some fonts;
     structure := Some structure |}.

(* ------------------------------------------------------------------------- *)
(** ** [_build_steps] *)

Definition size_map : dict (Z * Z) :=
  [ ("story", (1080, 1920)%Z);
    ("square", (1080, 1080)%Z);
    ("poster", (1080, 1350)%Z);
    ("a4", (2480, 3508)%Z) ].

(** [d.get("layout", "poster")] *)
Definition read_layout (d : DesignSpec) : string :=
  match layout d with Some l => l | None => "poster" end.

(** [size_map.get(d.get("layout", "poster"), (1080, 1350))] *)
Definition canvas_size (d : DesignSpec) : Z * Z :=
  dict_get size_map (read_layout d) (1080, 1350)%Z.

(** The subscript chains of the f-strings. *)
Definition read_style (d : DesignSpec) : result string :=
  s <- field "structure" (structure d) ;;
  e <- list_getitem s 0 ;;
  dict_getitem e "style".

Definition read_position (d : DesignSpec) : result string :=
  s <- field "structure" (structure d) ;;
  e <- list_getitem s 1 ;;
  dict_getitem e "position".

Definition read_palette (d : DesignSpec) (i : Z) : result string :=
  p <- field "palette" (palette d) ;;
  list_getitem p i.

Definition read_fonts (d : DesignSpec) (i : Z) : result string :=
  f <- field "fonts" (fonts d) ;;
  list_getitem f i.

(** The seven lines of [common], by what they interpolate. *)
Definition line_size (w h : Z) : string :=
  "Create a new document sized " ++ Str.of_int w ++ "x" ++ Str.of_int h
  ++ " px.".
Definition line_background (bg : string) : string :=
  "Set background to " ++ bg ++ ".".
Definition line_image (place : string) : string :=
  "Place the main image " ++ place ++ " and size it proportionally.".
Definition line_headline (font : string) : string :=
  "Add a bold headline using " ++ font ++ " and align left.".
Definition line_subhead (font : string) : string :=
  "Add supporting text with " ++ font ++ " and reduce tracking slightly.".
Definition line_cta (color : string) : string :=
  "Create a call-to-action button using " ++ color ++ " and white text.".
Definition line_export : string :=
  "Export as high-quality PNG (and save the source file as a reusable template).".

(** The list display [common = [...]]: its items are evaluated in order, a
    conditional expression evaluates only the branch it selects. *)
Definition common (d : DesignSpec) (w h : Z) : result (list string) :=
  style <- read_style d ;;
  bg <- (if String.eqb style "gradient" then Ok "a subtle radial gradient"
         else read_palette d 0) ;;
  position <- read_position d ;;
  let place :=
    if String.eqb position "center" then "centered" else "near the top" in
  f0 <- read_fonts d 0 ;;
  f1 <- read_fonts d (-1) ;;
  p1 <- read_palette d 1 ;;
  Ok [ line_size w h;
       line_background bg;
       line_image place;
       line_headline f0;
       line_subhead f1;
       line_cta p1;
       line_export ].

(** The [if tool == ... elif ... else] statement: [(prefix, suffix)]. *)
Definition tool_variant (tool : string) (w h : Z)
  : list string * list string :=
  if String.eqb tool "photoshop" then
    ( [ "Open Photoshop.";
        "File > New.";
        "Use Shape layers and Smart Objects for non-destructive editing." ],
      [ "Group layers (BG, Image, Text, CTA).";
        "Save as PSD and export PNG." ] )
  else if String.eqb tool "illustrator" then
    ( [ "Open Illustrator.";
        "File > New (RGB).";
        "Use rectangles and Type tool; keep elements on separate layers." ],
      [ "Convert shapes to symbols for reusability.";
        "Save as AI and export PNG." ] )
  else
    ( [ "Open Canva.";
        ("Create a custom size " ++ Str.of_int w ++ "x" ++ Str.of_int h
         ++ ".")%string;
        "Add a gradient or color rectangle as background." ],
      [ "Use Position > Tidy up to align elements.";
        "Download PNG and save the design as a template." ] ).

Definition _build_steps (tool : string) (d : DesignSpec)
  : result (list string) :=
  let '(w, h) := canvas_size d in
  c <- common d w h ;;
  let '(prefix, suffix) := tool_variant tool w h in
  Ok (prefix ++ c ++ suffix)%list.

(* ------------------------------------------------------------------------- *)
(** ** Request, document and response models *)

(** [class GuideRequest(BaseModel)] *)
Module GuideRequest.
Record t : Type := mk {
  source_name : string;
  image_url : option string;
  tools : list string
}.
End GuideRequest.

(** [class Guide(BaseModel)] of [schemas.py]. *)
Module Guide.
Record t : Type := mk {
  source_name : string;
  detected : DesignSpec;
  steps : dict (list string)
}.
End Guide.

(** The dictionary returned by [generate_guide]. *)
Module GuideResponse.
Record t : Type := mk {
  id : option string;
  source_name : string;
  detected : DesignSpec;
  steps : dict (list string);
  image_url : option string
}.
End GuideResponse.

(** The dictionary returned by [create_template]. *)
Module TemplateCreated.
Record t : Type := mk {
  id : string;
  status : string
}.
End TemplateCreated.

(** [fastapi.HTTPException] *)
Record HTTPException : Type := mkHTTPException {
  status_code : Z;
  detail : string
}.

(* ------------------------------------------------------------------------- *)
(** ** [generate_guide] and [create_template] *)

(** The loop [for tool in req.tools: steps_map[tool.lower()] = ...]. *)
Fixpoint steps_loop (tools : list string) (detected : DesignSpec)
    (steps_map : dict (list string)) : result (dict (list string)) :=
  match tools with
  | [] => Ok steps_map
  | tool :: rest =>
      s <- _build_steps (Str.lower tool) detected ;;
      steps_loop rest detected (dict_setitem steps_map (Str.lower tool) s)
  end.

(** The part of [generate_guide] before the store is written:
    [guide_doc = GuideSchema(...)]. *)
Definition guide_doc (req : GuideRequest.t) : result Guide.t :=
  let detected := _detect_design (GuideRequest.source_name req) in
  steps_map <- steps_loop (GuideRequest.tools req) detected [] ;;
  Ok {| Guide.source_name := GuideRequest.source_name req;
        Guide.detected := detected;
        Guide.steps := steps_map |}.

Section Handlers.

(** The [database] module is outside the source tree.  Its store is a state
    of some type [store]; [create_document(collection, data)] either
    returns the new identifier or raises, and may change the store.  The
    handlers pass a [Template] payload through without reading it. *)
Variable store : Type.
Variable Template : Type.

Inductive document : Type :=
| TemplateDoc (payload : Template)
| GuideDoc (guide : Guide.t).

Variable create_document :
  string -> document -> store -> result string * store.

(** [POST /api/templates] *)
Definition create_template (payload : Template) (st : store)
  : (HTTPException + TemplateCreated.t) * store :=
  match create_document "template" (TemplateDoc payload) st with
  | (Ok template_id, st') =>
      (inr {| TemplateCreated.id := template_id;
              TemplateCreated.status := "created" |}, st')
  | (Raise e, st') =>
      (inl {| status_code := 500; detail := exn_str e |}, st')
  end.

(** [POST /api/guides] *)
Definition generate_guide (req : GuideRequest.t) (st : store)
  : result GuideResponse.t * store :=
  match guide_doc req with
  | Raise e => (Raise e, st)
  | Ok doc =>
      let '(guide_id, st') :=
        match create_document "guide" (GuideDoc doc) st with
        | (Ok i, st') => (Some i, st')
        | (Raise _, st') => (None, st')
        end in
      (Ok {| GuideResponse.id := guide_id;
             GuideResponse.source_name := Guide.source_name doc;
             GuideResponse.detected := Guide.detected doc;
             GuideResponse.steps := Guide.steps doc;
             GuideResponse.image_url := GuideRequest.image_url req |},
       st')
  end.

End Handlers.

Arguments TemplateDoc {Template} payload.
Arguments GuideDoc {Template} guide.
Arguments create_template {store Template} create_document payload st.
Arguments generate_guide {store Template} create_document req st.

(** A store that is down, and one that hands out the same identifier. *)
Definition store_down {T : Type} (_ : string) (_ : document T) (st : unit)
  : result string * unit := (Raise (Exception "database unavailable"), st).
Definition store_up {T : Type} (_ : string) (_ : document T) (st : unit)
  : result string * unit := (Ok "64f0c0ffee", st).

(* ------------------------------------------------------------------------- *)
(** ** Predicates used in the statements *)

(** [k] occurs in [name] up to the case of letters: some contiguous piece of
    [name] lower-cases to [k]. *)
Definition occurs_ci (k name : string) : Prop :=
  exists pre mid post, name = pre ++ mid ++ post /\ Str.lower mid = k.

(** Every keyword that [_detect_design] tests. *)
Definition all_keywords : list string :=
  (story_keywords ++ square_keywords ++ a4_keywords ++ palette_keywords
   ++ ["modern"; "tech"; "grad"])%list.

(** The design dictionary for a name that matches nothing. *)
Definition default_spec : DesignSpec :=
  {| layout := Some "poster";
     palette := Some ["#111827"; "#E5E7EB"; "#FF4D4D"];
     fonts := Some ["Poppins"; "Montserrat"];
     structure :=
       Some [ [("type", "background"); ("style", "solid")];
              [("type", "image"); ("position", "center")];
              [("type", "headline"); ("weight", "700"); ("case", "upper")];
              [("type", "subhead"); ("weight", "500")];
              [("type", "cta"); ("variant", "pill")] ] |}.

Definition has_key (e : dict string) (k : string) : bool :=
  match dict_lookup e k with Some _ => true | None => false end.

Definition has_type (e : dict string) (ty : string) : bool :=
  match dict_lookup e "type" with
  | Some ty' => String.eqb ty' ty
  | None => false
  end.

(** The shape of a design dictionary: three palette entries, two fonts, and
    the five structure entries background, image, headline, subhead, cta in
    this order, the first with a style and the second with a position.  The
    layout is left free. *)
Definition shape_ok (d : DesignSpec) : bool :=
  match palette d, fonts d, structure d with
  | Some [_; _; _], Some [_; _], Some [bg; img; hd; sh; cta] =>
      has_type bg "background" && has_key bg "style"
      && has_type img "image" && has_key img "position"
      && has_type hd "headline" && has_type sh "subhead" && has_type cta "cta"
  | _, _, _ => false
  end.

(** [default_spec] with another third colour and other attributes on the
    headline, subhead and cta entries. *)
Definition restyled_spec : DesignSpec :=
  {| layout := Some "poster";
     palette := Some ["#111827"; "#E5E7EB"; "#00FF00"];
     fonts := Some ["Poppins"; "Montserrat"];
     structure :=
       Some [ [("type", "background"); ("style", "solid")];
              [("type", "image"); ("position", "center")];
              [("type", "headline"); ("weight", "400"); ("case", "lower")];
              [("type", "subhead"); ("weight", "300")];
              [("type", "cta"); ("variant", "square")] ] |}.

(** Some keyword of [ks] occurs in [name] up to the case of letters. *)
Definition occurs_any (ks : list string) (name : string) : Prop :=
  exists k, In k ks /\ occurs_ci k name.

(** What [_build_steps] needs of a design dictionary: a structure of at least
    two entries, the first with a style and the second with a position, at
    least one font and at least two palette entries. *)
Definition readable (d : DesignSpec) : bool :=
  match structure d, fonts d, palette d with
  | Some (bg :: img :: _), Some (_ :: _), Some (_ :: _ :: _) =>
      has_key bg "style" && has_key img "position"
  | _, _, _ => false
  end.

(** The dictionary [d] with its layout key set, or removed. *)
Definition with_layout (d : DesignSpec) (l : option string) : DesignSpec :=
  {| layout := l;
     palette := palette d;
     fonts := fonts d;
     structure := structure d |}.

(** Two dictionaries for the statements below: a gradient one, and the same
    with another first colour, another non-centred position and more
    fonts. *)
Definition gradient_spec : DesignSpec :=
  {| layout := Some "story";
     palette := Some ["#111827"; "#E5E7EB"];
     fonts := Some ["Inter"];
     structure := Some [ [("style", "gradient")]; [("position", "top")] ] |}.

Definition gradient_spec' : DesignSpec :=
  {| layout := Some "story";
     palette := Some ["#ABCDEF"; "#E5E7EB"; "#000000"];
     fonts := Some ["Inter"; "Lato"; "Inter"];
     structure :=
       Some [ [("style", "gradient"); ("angle", "45")];
              [("position", "bottom")];
              [("type", "footer")] ] |}.

(** A dictionary with one colour only. *)
Definition one_colour_spec : DesignSpec :=
  {| layout := Some "a4";
     palette := Some ["#000000"];
     fonts := Some ["Inter"];
     structure := Some [ [("style", "solid")]; [("position", "top")] ] |}.

(** The exceptions that the subscripts of [_build_steps] can raise. *)
Definition subscript_error (e : exn) : Prop :=
  e = IndexError
  \/ exists k,
       In k ["structure"; "style"; "position"; "palette"; "fonts"]
       /\ e = KeyError k.

(** The distinct elements of [l], each at the place of its first
    occurrence: the order of the keys of a dictionary filled from [l]. *)
Fixpoint first_occurrences (l : list string) : list string :=
  match l with
  | [] => []
  | x :: r => x :: filter (fun y => negb (String.eqb y x)) (first_occurrences r)
  end.

(** [GuideRequest.tools] has the default
    [["photoshop", "canva", "illustrator"]]: the request built from a body
    with or without a [tools] member. *)
Definition default_tools : list string := ["photoshop"; "canva"; "illustrator"].

Definition parse_guide_request (source_name : string)
    (image_url : option string) (tools : option (list string))
  : GuideRequest.t :=
  {| GuideRequest.source_name := source_name;
     GuideRequest.image_url := image_url;
     GuideRequest.tools :=
       match tools with Some ts => ts | None => default_tools end |}.

(* ------------------------------------------------------------------------- *)
(** ** [list_templates] *)

(** [d.pop(k, default)]: the value removed, or the default, and what is
    left of the dictionary. *)
Fixpoint dict_pop {V : Type} (d : dict V) (k : string) (default : V)
  : V * dict V :=
  match d with
  | [] => (default, [])
  | (k', v) :: d' =>
      if String.eqb k' k then (v, d')
      else let '(x, r) := dict_pop d' k default in (x, (k', v) :: r)
  end.

(** The dictionary [{"items": docs}]. *)
Record ItemList (V : Type) : Type := mkItemList {
  items : list (dict V)
}.

Arguments mkItemList {V} items.
Arguments items {V} i.

Section Templates.

(** The values of a stored document are of some type [value] that holds
    the strings ([of_str]) and has Python's [str()] ([py_str]).
    [get_documents(collection, filter, limit)] of the [database] module
    returns the documents as a list of distinct dictionaries, or raises. *)
Variable store : Type.
Variable value : Type.
Variable py_str : value -> string.
Variable of_str : string -> value.

Variable get_documents :
  string -> dict value -> Z -> store -> result (list (dict value)) * store.

(** The loop body [d["id"] = str(d.pop("_id", ""))]. *)
Definition convert_id (d : dict value) : dict value :=
  let '(oid, d') := dict_pop d "_id" (of_str "") in
  dict_setitem d' "id" (of_str (py_str oid)).

(** [GET /api/templates], with [limit] defaulting to 20. *)
Definition list_templates (limit : option Z) (st : store)
  : (HTTPException + ItemList value) * store :=
  let limit := match limit with Some n => n | None => 20%Z end in
  match get_documents "template" [] limit st with
  | (Ok docs, st') => (inr {| items := map convert_id docs |}, st')
  | (Raise e, st') =>
      (inl {| status_code := 500; detail := exn_str e |}, st')
  end.

End Templates.

Arguments convert_id {value} py_str of_str d.
Arguments list_templates {store value} py_str of_str get_documents limit st.

(** A store of two templates, one of them without an identifier, and the
    same store when it cannot be reached. *)
Definition two_templates (_ : string) (_ : dict string) (_ : Z) (st : unit)
  : result (list (dict string)) * unit :=
  (Ok [ [("_id", "64f0c0ffee"); ("name", "Sale poster")];
        [("name", "Draft"); ("id", "stale")] ], st).

Definition no_templates (_ : string) (_ : dict string) (_ : Z) (st : unit)
  : result (list (dict string)) * unit :=
  (Raise (Exception "database unavailable"), st).

(* ------------------------------------------------------------------------- *)
(** ** [test_database] *)

(** The module-level [db]: reading its [name] gives a value, finds no such
    attribute ([hasattr] is false) or raises; [list_collection_names()]
    returns the names or raises. *)
Record Database : Type := mkDatabase {
  name_attr : result (option string);
  list_collection_names : result (list string)
}.

(** The dictionary [response]. *)
Record TestResponse : Type := mkTestResponse {
  backend : string;
  database : string;
  database_url : option string;
  database_name : option string;
  connection_status : string;
  collections : list string
}.

(** [s[:n]], for a text of ASCII characters ([n] counts bytes here and
    code points in Python). *)
Definition str_take (n : nat) (s : string) : string := substring 0 n s.

(** The truth value of [os.getenv(k)]: set, and not empty. *)
Definition env_set (getenv : string -> option string) (k : string) : bool :=
  match getenv k with
  | Some EmptyString | None => false
  | Some (String _ _) => true
  end.

(** [response[key] = v] for the keys that the handler assigns. *)
Definition set_database (r : TestResponse) (v : string) : TestResponse :=
  {| backend := backend r; database := v;
     database_url := database_url r; database_name := database_name r;
     connection_status := connection_status r;
     collections := collections r |}.

Definition set_database_url (r : TestResponse) (v : option string)
  : TestResponse :=
  {| backend := backend r; database := database r;
     database_url := v; database_name := database_name r;
     connection_status := connection_status r;
     collections := collections r |}.

Definition set_database_name (r : TestResponse) (v : option string)
  : TestResponse :=
  {| backend := backend r; database := database r;
     database_url := database_url r; database_name := v;
     connection_status := connection_status r;
     collections := collections r |}.

Definition set_connection_status (r : TestResponse) (v : string)
  : TestResponse :=
  {| backend := backend r; database := database r;
     database_url := database_url r; database_name := database_name r;
     connection_status := v;
     collections := collections r |}.

Definition set_collections (r : TestResponse) (v : list string)
  : TestResponse :=
  {| backend := backend r; database := database r;
     database_url := database_url r; database_name := database_name r;
     connection_status := connection_status r;
     collections := v |}.

(** [GET /test]: the assignments in the order of the source; the outer
    [except] is reached from the read of [db.name], the inner one from
    [list_collection_names()]. *)
Definition test_database (db : option Database)
    (getenv : string -> option string) : TestResponse :=
  let response :=
    {| backend := "✅ Running";
       database := "❌ Not Available";
       database_url := None;
       database_name := None;
       connection_status := "Not Connected";
       collections := [] |} in
  let response :=
    match db with
    | Some db =>
        let response := set_database response "✅ Available" in
        let response := set_database_url response (Some "✅ Configured") in
        match name_attr db with
        | Ok nm =>
            let response :=
              set_database_name response
                (Some (match nm with Some n => n | None => "✅ Connected" end))
            in
            let response := set_connection_status response "Connected" in
            match list_collection_names db with
            | Ok cs =>
                let response := set_collections response (firstn 10 cs) in
                set_database response "✅ Connected & Working"
            | Raise e =>
                set_database response
                  ("⚠️  Connected but Error: " ++ str_take 50 (exn_str e))
            end
        | Raise e =>
            set_database response ("❌ Error: " ++ str_take 50 (exn_str e))
        end
    | None => set_database response "⚠️  Available but not initialized"
    end in
  let response :=
    set_database_url response
      (Some (if env_set getenv "DATABASE_URL" then "✅ Set" else "❌ Not Set"))
  in
  set_database_name response
    (Some (if env_set getenv "DATABASE_NAME" then "✅ Set" else "❌ Not Set")).

(* ------------------------------------------------------------------------- *)
(** ** [generate_guide] for any lower-casing *)

(** Python's [str.lower] works on Unicode text, [Str.lower] on the letters
    A-Z only; the two agree on names without other letters.  For what is
    stated about the keys of the steps map, [tool.lower()] is a parameter
    [lower], any function on strings: what holds for every [lower] holds
    for Python's own.  At [Str.lower] these are [steps_loop], [guide_doc]
    and [generate_guide]. *)
Fixpoint steps_loop_with (lower : string -> string) (tools : list string)
    (detected : DesignSpec) (steps_map : dict (list string))
  : result (dict (list string)) :=
  match tools with
  | [] => Ok steps_map
  | tool :: rest =>
      s <- _build_steps (lower tool) detected ;;
      steps_loop_with lower rest detected
        (dict_setitem steps_map (lower tool) s)
  end.

Definition guide_doc_with (lower : string -> string) (req : GuideRequest.t)
  : result Guide.t :=
  let detected := _detect_design (GuideRequest.source_name req) in
  steps_map <- steps_loop_with lower (GuideRequest.tools req) detected [] ;;
  Ok {| Guide.source_name := GuideRequest.source_name req;
        Guide.detected := detected;
        Guide.steps := steps_map |}.

Definition generate_guide_with {store Template : Type}
    (lower : string -> string)
    (create_document :
       string -> document Template -> store -> result string * store)
    (req : GuideRequest.t) (st : store)
  : result GuideResponse.t * store :=
  match guide_doc_with lower req with
  | Raise e => (Raise e, st)
  | Ok doc =>
      let '(guide_id, st') :=
        match create_document "guide" (GuideDoc doc) st with
        | (Ok i, st') => (Some i, st')
        | (Raise _, st') => (None, st')
        end in
      (Ok {| GuideResponse.id := guide_id;
             GuideResponse.source_name := Guide.source_name doc;
             GuideResponse.detected := Guide.detected doc;
             GuideResponse.steps := Guide.steps doc;
             GuideResponse.image_url := GuideRequest.image_url req |},
       st')
  end.

(* ------------------------------------------------------------------------- *)
(** ** Strings: lower-casing and substring search *)

Lemma lower_app (a b : string) :
  Str.lower (a ++ b) = Str.lower a ++ Str.lower b.
Proof.
  induction a as [|c a IH]; simpl; [reflexivity | now rewrite IH].
Qed.

Lemma lower_ascii_idem (c : ascii) :
  Str.lower_ascii (Str.lower_ascii c) = Str.lower_ascii c.
Proof.
  destruct c as [[] [] [] [] [] [] [] []]; reflexivity.
Qed.

Lemma lower_idem (s : string) : Str.lower (Str.lower s) = Str.lower s.
Proof.
  induction s as [|c s IH]; simpl; [reflexivity|].
  now rewrite lower_ascii_idem, IH.
Qed.

Lemma startswith_app (k post : string) : Str.startswith k (k ++ post) = true.
Proof.
  induction k as [|c k IH]; simpl; [reflexivity|].
  now rewrite Ascii.eqb_refl, IH.
Qed.

Lemma startswith_split (k s : string) :
  Str.startswith k s = true -> exists post, s = k ++ post.
Proof.
  revert s; induction k as [|c k IH]; intros s H.
  - now exists s.
  - destruct s as [|b s]; simpl in H; [discriminate|].
    apply andb_true_iff in H as [Hc Hk].
    apply Ascii.eqb_eq in Hc; subst b.
    destruct (IH _ Hk) as [post ->].
    now exists post.
Qed.

Lemma contains_here (k s : string) :
  Str.startswith k s = true -> Str.contains k s = true.
Proof.
  intros H; destruct s; simpl in *; rewrite H; reflexivity.
Qed.

Lemma contains_later (k : string) (c : ascii) (s : string) :
  Str.contains k s = true -> Str.contains k (String c s) = true.
Proof.
  intros H.
  change (Str.startswith k (String c s) || Str.contains k s = true).
  rewrite H; apply orb_true_r.
Qed.

(** [k in s] holds exactly when [s] is [pre + k + post]. *)
Lemma contains_iff (k s : string) :
  Str.contains k s = true <-> exists pre post, s = pre ++ k ++ post.
Proof.
  split.
  - induction s as [|c s IH]; simpl; intros H.
    + rewrite orb_false_r in H.
      destruct (startswith_split _ _ H) as [post ->].
      now exists "", post.
    + apply orb_true_iff in H as [H|H].
      * destruct (startswith_split _ _ H) as [post ->].
        now exists "", post.
      * destruct (IH H) as (pre & post & ->).
        now exists (String c pre), post.
  - intros (pre & post & ->).
    induction pre as [|c pre IH]; cbn [append].
    + apply contains_here, startswith_app.
    + apply contains_later, IH.
Qed.

Lemma occurs_ci_contains (k name : string) :
  occurs_ci k name -> Str.contains k (Str.lower name) = true.
Proof.
  intros (pre & mid & post & -> & <-).
  apply contains_iff.
  exists (Str.lower pre), (Str.lower post).
  now rewrite !lower_app.
Qed.

Lemma any_in_intro (ks : list string) (k s : string) :
  In k ks -> Str.contains k s = true -> any_in ks s = true.
Proof.
  intros Hin Hk; apply existsb_exists; now exists k.
Qed.

Lemma any_in_app (ks1 ks2 : list string) (s : string) :
  any_in (ks1 ++ ks2)%list s = any_in ks1 s || any_in ks2 s.
Proof. apply existsb_app. Qed.

(* ------------------------------------------------------------------------- *)
(** ** Reading a well-shaped design dictionary *)

Lemma shape_ok_inv (d : DesignSpec) :
  shape_ok d = true ->
  exists p0 p1 p2 f0 f1 bg img hd sh cta style pos,
    palette d = Some [p0; p1; p2] /\ fonts d = Some [f0; f1] /\
    structure d = Some [bg; img; hd; sh; cta] /\
    dict_lookup bg "style" = Some style /\
    dict_lookup img "position" = Some pos.
Proof.
  destruct d as [l p f s]; unfold shape_ok; cbn [palette fonts structure].
  destruct p as [[|p0 [|p1 [|p2 [|? ?]]]]|]; try discriminate.
  destruct f as [[|f0 [|f1 [|? ?]]]|]; try discriminate.
  destruct s as [[|bg [|img [|hd [|sh [|cta [|? ?]]]]]]|]; try discriminate.
  unfold has_key; intros H.
  repeat (apply andb_true_iff in H; destruct H as [H ?]).
  destruct (dict_lookup bg "style") as [style|] eqn:Hstyle; [|discriminate].
  destruct (dict_lookup img "position") as [pos|] eqn:Hpos; [|discriminate].
  exists p0, p1, p2, f0, f1, bg, img, hd, sh, cta, style, pos.
  repeat split; reflexivity || assumption.
Qed.

(** What [common] evaluates to once every subscript succeeds. *)
Lemma common_reads (d : DesignSpec) (w h : Z)
    (p0 p1 p2 f0 f1 : string) (bg img hd sh cta : dict string)
    (style pos : string) :
  palette d = Some [p0; p1; p2] -> fonts d = Some [f0; f1] ->
  structure d = Some [bg; img; hd; sh; cta] ->
  dict_lookup bg "style" = Some style ->
  dict_lookup img "position" = Some pos ->
  common d w h =
  Ok [ line_size w h;
       line_background (if String.eqb style "gradient"
                        then "a subtle radial gradient" else p0);
       line_image (if String.eqb pos "center"
                   then "centered" else "near the top");
       line_headline f0;
       line_subhead f1;
       line_cta p1;
       line_export ].
Proof.
  intros Hp Hf Hs Hstyle Hpos.
  unfold common, read_style, read_position, read_palette, read_fonts.
  rewrite Hp, Hf, Hs; cbn [field bind].
  change (list_getitem [bg; img; hd; sh; cta] 0) with (Ok bg).
  change (list_getitem [bg; img; hd; sh; cta] 1) with (Ok img).
  change (list_getitem [p0; p1; p2] 0) with (Ok p0).
  change (list_getitem [p0; p1; p2] 1) with (Ok p1).
  change (list_getitem [f0; f1] 0) with (Ok f0).
  change (list_getitem [f0; f1] (-1)) with (Ok f1).
  unfold dict_getitem; cbn [bind]; rewrite Hstyle, Hpos; cbn [bind].
  destruct (String.eqb style "gradient"); reflexivity.
Qed.

Lemma build_steps_unfold (tool : string) (d : DesignSpec) :
  _build_steps tool d =
  (c <- common d (fst (canvas_size d)) (snd (canvas_size d)) ;;
   Ok (fst (tool_variant tool (fst (canvas_size d)) (snd (canvas_size d)))
       ++ c
       ++ snd (tool_variant tool (fst (canvas_size d)) (snd (canvas_size d))))%list).
Proof.
  unfold _build_steps.
  destruct (canvas_size d) as [w h]; cbn [fst snd].
  destruct (common d w h) as [c|e]; cbn [bind]; [|reflexivity].
  destruct (tool_variant tool w h); reflexivity.
Qed.

Lemma tool_variant_lengths (tool : string) (w h : Z) :
  length (fst (tool_variant tool w h)) = 3%nat /\
  length (snd (tool_variant tool w h)) = 2%nat.
Proof.
  unfold tool_variant.
  destruct (String.eqb tool "photoshop"); [split; reflexivity|].
  destruct (String.eqb tool "illustrator"); split; reflexivity.
Qed.

Lemma tool_variant_fallback (tool : string) (w h : Z) :
  tool <> "photoshop" -> tool <> "illustrator" ->
  tool_variant tool w h = tool_variant "canva" w h.
Proof.
  intros Hp Hi; unfold tool_variant.
  apply String.eqb_neq in Hp, Hi.
  now rewrite Hp, Hi.
Qed.

(** On a well-shaped dictionary [_build_steps] returns prefix, common block
    and suffix, in this order. *)
Lemma build_steps_shape (tool : string) (d : DesignSpec) :
  shape_ok d = true ->
  exists c,
    common d (fst (canvas_size d)) (snd (canvas_size d)) = Ok c /\
    length c = 7%nat /\
    nth_error c 0
    = Some (line_size (fst (canvas_size d)) (snd (canvas_size d))) /\
    _build_steps tool d
    = Ok (fst (tool_variant tool (fst (canvas_size d)) (snd (canvas_size d)))
          ++ c
          ++ snd (tool_variant tool (fst (canvas_size d))
                    (snd (canvas_size d))))%list.
Proof.
  intros Hshape.
  destruct (shape_ok_inv d Hshape)
    as (p0 & p1 & p2 & f0 & f1 & bg & img & hd & sh & cta & style & pos
        & Hp & Hf & Hs & Hstyle & Hpos).
  pose proof (common_reads d (fst (canvas_size d)) (snd (canvas_size d))
                _ _ _ _ _ _ _ _ _ _ _ _ Hp Hf Hs Hstyle Hpos) as Hc.
  eexists; split; [exact Hc|].
  split; [reflexivity|].
  split; [reflexivity|].
  rewrite build_steps_unfold, Hc; reflexivity.
Qed.

Lemma detect_shape (name : string) : shape_ok (_detect_design name) = true.
Proof.
  unfold _detect_design, shape_ok; cbn [palette fonts structure].
  destruct (any_in palette_keywords (Str.lower name));
    destruct (Str.contains "modern" (Str.lower name)
              || Str.contains "tech" (Str.lower name)); reflexivity.
Qed.

(* ------------------------------------------------------------------------- *)
(** ** The embedding on concrete inputs *)

Example detect_modern_tech_poster :
  _detect_design "Modern Tech Poster"
  = {| layout := Some "square";
       palette := Some ["#0B0F1A"; "#FF7A00"; "#FFFFFF"];
       fonts := Some ["Inter"; "Manrope"];
       structure :=
         Some [ [("type", "background"); ("style", "solid")];
                [("type", "image"); ("position", "center")];
                [("type", "headline"); ("weight", "700"); ("case", "upper")];
                [("type", "subhead"); ("weight", "500")];
                [("type", "cta"); ("variant", "pill")] ] |}.
Proof. reflexivity. Qed.

Example detect_gradient_reel :
  _detect_design "GRADient Reel, square print"
  = {| layout := Some "story";
       palette := Some ["#111827"; "#E5E7EB"; "#FF4D4D"];
       fonts := Some ["Poppins"; "Montserrat"];
       structure :=
         Some [ [("type", "background"); ("style", "gradient")];
                [("type", "image"); ("position", "top")];
                [("type", "headline"); ("weight", "700"); ("case", "upper")];
                [("type", "subhead"); ("weight", "500")];
                [("type", "cta"); ("variant", "pill")] ] |}.
Proof. reflexivity. Qed.

Example build_steps_canva_square :
  _build_steps "canva" (_detect_design "Tech Robot Square Post")
  = Ok [ "Open Canva.";
         "Create a custom size 1080x1080.";
         "Add a gradient or color rectangle as background.";
         "Create a new document sized 1080x1080 px.";
         "Set background to #0B0F1A.";
         "Place the main image centered and size it proportionally.";
         "Add a bold headline using Inter and align left.";
         "Add supporting text with Manrope and reduce tracking slightly.";
         "Create a call-to-action button using #FF7A00 and white text.";
         "Export as high-quality PNG (and save the source file as a reusable template).";
         "Use Position > Tidy up to align elements.";
         "Download PNG and save the design as a template." ].
Proof. reflexivity. Qed.

(** Outside the shape the subscripts of [common] raise, as in Python. *)
Example build_steps_empty_dict :
  _build_steps "canva" (mkDesignSpec None None None None)
  = Raise (KeyError "structure").
Proof. reflexivity. Qed.

Example build_steps_no_fonts :
  _build_steps "canva"
    {| layout := Some "a4";
       palette := Some ["#000000"; "#FFFFFF"];
       fonts := Some [];
       structure := Some [ [("style", "gradient")]; [("position", "top")] ] |}
  = Raise IndexError.
Proof. reflexivity. Qed.

(** A gradient background never reads [palette[0]]; [palette[1]] is read
    last. *)
Example build_steps_gradient_short_palette :
  _build_steps "canva"
    {| layout := None;
       palette := Some [];
       fonts := Some ["Inter"];
       structure := Some [ [("style", "gradient")]; [("position", "top")] ] |}
  = Raise IndexError
  /\ read_fonts
       {| layout := None; palette := Some []; fonts := Some ["Inter"];
          structure := None |} (-1) = Ok "Inter".
Proof. split; reflexivity. Qed.

(** A later duplicate of a tool name overwrites the earlier entry in place. *)
Example generate_guide_duplicate_tools :
  match generate_guide (@store_down unit)
          (GuideRequest.mk "plain" None ["Canva"; "photoshop"; "CANVA"]) tt with
  | (Ok resp, _) =>
      map fst (GuideResponse.steps resp) = ["canva"; "photoshop"]
      /\ GuideResponse.id resp = None
  | (Raise _, _) => False
  end.
Proof. split; reflexivity. Qed.

(* ------------------------------------------------------------------------- *)
(** ** The detector *)

(** C1.  Whenever one of "story", "reel", "vertical" or "instagram story"
    occurs in the name, in any mix of upper and lower case, the detected
    layout is "story".  Nothing is assumed about the rest of the name, so
    the keywords of the square, a4 and poster rules may occur as well. *)
Theorem detect_story_priority (name k : string) :
  In k story_keywords -> occurs_ci k name ->
  layout (_detect_design name) = Some "story".
Proof.
  intros Hin Hocc.
  unfold _detect_design, detect_layout; cbn [layout].
  now rewrite (any_in_intro _ _ _ Hin (occurs_ci_contains _ _ Hocc)).
Qed.

Lemma detect_story_priority_witness :
  In "reel" story_keywords /\
  occurs_ci "reel" "Square Instagram REEL for A4 print poster" /\
  layout (_detect_design "Square Instagram REEL for A4 print poster")
  = Some "story".
Proof.
  assert (Hin : In "reel" story_keywords) by (simpl; auto).
  assert (Hocc : occurs_ci "reel" "Square Instagram REEL for A4 print poster").
  { exists "Square Instagram ", "REEL", " for A4 print poster".
    split; reflexivity. }
  exact (conj Hin (conj Hocc (detect_story_priority _ _ Hin Hocc))).
Defined.

(** C5.  A name in which no keyword occurs, the empty name among them, gets
    the default at every step: poster layout, the second palette, the second
    font pair, a solid background and a centred image.  [_detect_design] is a
    total function: it has no error result. *)
Theorem detect_default (name : string) :
  any_in all_keywords (Str.lower name) = false ->
  _detect_design name = default_spec.
Proof.
  unfold all_keywords; rewrite !any_in_app.
  intros H.
  repeat (apply orb_false_iff in H; destruct H as [? H]).
  simpl in H.
  repeat (apply orb_false_iff in H; destruct H as [? H]).
  unfold _detect_design, detect_layout, detect_structure, default_spec.
  repeat match goal with E : _ = false |- _ => rewrite E; clear E end.
  reflexivity.
Qed.

Lemma detect_default_witness :
  any_in all_keywords (Str.lower "") = false /\
  _detect_design "" = default_spec.
Proof.
  split; [reflexivity | apply detect_default; reflexivity].
Defined.

(* ------------------------------------------------------------------------- *)
(** ** The step builder *)

(** C2.  For every tool string and every well-shaped design dictionary,
    [_build_steps] returns the tool's prefix, then the common block, then the
    tool's suffix, of 3, 7 and 2 lines: 12 lines, whatever the tool is.  The
    prefix and the suffix are those of Photoshop for "photoshop", those of
    Illustrator for "illustrator" and those of Canva, with the canvas size in
    the second line, for every other tool. *)
Theorem build_steps_length (tool : string) (d : DesignSpec) :
  shape_ok d = true ->
  exists prefix c suffix,
    tool_variant tool (fst (canvas_size d)) (snd (canvas_size d))
    = (prefix, suffix) /\
    common d (fst (canvas_size d)) (snd (canvas_size d)) = Ok c /\
    _build_steps tool d = Ok (prefix ++ c ++ suffix)%list /\
    length prefix = 3%nat /\ length c = 7%nat /\ length suffix = 2%nat /\
    length (prefix ++ c ++ suffix)%list = 12%nat /\
    (tool = "photoshop" ->
     prefix
     = [ "Open Photoshop.";
         "File > New.";
         "Use Shape layers and Smart Objects for non-destructive editing." ]
     /\ suffix
        = [ "Group layers (BG, Image, Text, CTA).";
            "Save as PSD and export PNG." ]) /\
    (tool = "illustrator" ->
     prefix
     = [ "Open Illustrator.";
         "File > New (RGB).";
         "Use rectangles and Type tool; keep elements on separate layers." ]
     /\ suffix
        = [ "Convert shapes to symbols for reusability.";
            "Save as AI and export PNG." ]) /\
    (tool <> "photoshop" -> tool <> "illustrator" ->
     prefix
     = [ "Open Canva.";
         "Create a custom size " ++ Str.of_int (fst (canvas_size d)) ++ "x"
         ++ Str.of_int (snd (canvas_size d)) ++ ".";
         "Add a gradient or color rectangle as background." ]
     /\ suffix
        = [ "Use Position > Tidy up to align elements.";
            "Download PNG and save the design as a template." ]).
Proof.
  intros Hshape.
  destruct (build_steps_shape tool d Hshape) as (c & Hc & Hlen & _ & Hsteps).
  destruct (tool_variant_lengths tool (fst (canvas_size d))
              (snd (canvas_size d))) as [Hpre Hsuf].
  eexists _, c, _.
  split; [apply surjective_pairing|].
  split; [exact Hc|].
  split; [exact Hsteps|].
  rewrite !length_app, Hpre, Hsuf, Hlen.
  do 4 (split; [reflexivity|]).
  split; [intros ->; split; reflexivity|].
  split; [intros ->; split; reflexivity|].
  intros Hp Hi; rewrite (tool_variant_fallback tool _ _ Hp Hi).
  split; reflexivity.
Qed.

Lemma build_steps_length_witness :
  shape_ok (_detect_design "Gradient Story") = true /\
  exists c,
    common (_detect_design "Gradient Story")
      (fst (canvas_size (_detect_design "Gradient Story")))
      (snd (canvas_size (_detect_design "Gradient Story"))) = Ok c /\
    length c = 7%nat /\
    _build_steps "illustrator" (_detect_design "Gradient Story")
    = Ok ([ "Open Illustrator.";
            "File > New (RGB).";
            "Use rectangles and Type tool; keep elements on separate layers." ]
          ++ c
          ++ [ "Convert shapes to symbols for reusability.";
               "Save as AI and export PNG." ])%list.
Proof.
  split; [reflexivity|].
  destruct (build_steps_length "illustrator" (_detect_design "Gradient Story")
              eq_refl)
    as (prefix & c & suffix & _ & Hc & Hsteps & _ & Hlen & _ & _ & _ & Hill
        & _).
  destruct (Hill eq_refl) as [-> ->].
  exists c; split; [exact Hc|]; split; [exact Hlen | exact Hsteps].
Defined.

(** C3.  A tool string other than "photoshop" and "illustrator" gives the
    steps of "canva", on every design dictionary; on a well-shaped one this
    is a list of steps, not an error. *)
Theorem build_steps_fallback (tool : string) (d : DesignSpec) :
  tool <> "photoshop" -> tool <> "illustrator" ->
  _build_steps tool d = _build_steps "canva" d /\
  (shape_ok d = true -> exists steps, _build_steps tool d = Ok steps).
Proof.
  intros Hp Hi; split.
  - rewrite !build_steps_unfold.
    now rewrite (tool_variant_fallback tool _ _ Hp Hi).
  - intros Hshape.
    destruct (build_steps_shape tool d Hshape) as (c & _ & _ & _ & Hsteps).
    eexists; exact Hsteps.
Qed.

Lemma build_steps_fallback_witness :
  "unknown-tool" <> "photoshop" /\ "unknown-tool" <> "illustrator" /\
  shape_ok default_spec = true /\
  _build_steps "unknown-tool" default_spec = _build_steps "canva" default_spec
  /\ exists steps, _build_steps "unknown-tool" default_spec = Ok steps.
Proof.
  assert (Hp : "unknown-tool" <> "photoshop") by discriminate.
  assert (Hi : "unknown-tool" <> "illustrator") by discriminate.
  assert (Hshape : shape_ok default_spec = true) by reflexivity.
  destruct (build_steps_fallback "unknown-tool" default_spec Hp Hi)
    as [Heq Hok].
  exact (conj Hp (conj Hi (conj Hshape (conj Heq (Hok Hshape))))).
Defined.

(** C6.  [_build_steps] takes the canvas size from the layout by the table
    story 1080x1920, square 1080x1080, poster 1080x1350, a4 2480x3508, and
    1080x1350 for any other layout or none.  On a well-shaped dictionary the
    first common line, the fourth of the output, names that size: it contains
    "2480x3508 px" for layout a4 and "1080x1080 px" for layout square. *)
Theorem build_steps_canvas_size (tool : string) (d : DesignSpec) :
  shape_ok d = true ->
  (layout d = Some "story" -> canvas_size d = (1080, 1920)%Z) /\
  (layout d = Some "square" -> canvas_size d = (1080, 1080)%Z) /\
  (layout d = Some "poster" -> canvas_size d = (1080, 1350)%Z) /\
  (layout d = Some "a4" -> canvas_size d = (2480, 3508)%Z) /\
  ((forall l, layout d = Some l ->
      ~ In l ["story"; "square"; "poster"; "a4"]) ->
   canvas_size d = (1080, 1350)%Z) /\
  exists steps line,
    _build_steps tool d = Ok steps /\
    nth_error steps 3 = Some line /\
    line = line_size (fst (canvas_size d)) (snd (canvas_size d)) /\
    (layout d = Some "a4" ->
     line = "Create a new document sized 2480x3508 px." /\
     Str.contains "2480x3508 px" line = true) /\
    (layout d = Some "square" ->
     line = "Create a new document sized 1080x1080 px." /\
     Str.contains "1080x1080 px" line = true).
Proof.
  intros Hshape.
  assert (Hstory : layout d = Some "story" -> canvas_size d = (1080, 1920)%Z)
    by (unfold canvas_size, read_layout; intros ->; reflexivity).
  assert (Hsquare : layout d = Some "square" -> canvas_size d = (1080, 1080)%Z)
    by (unfold canvas_size, read_layout; intros ->; reflexivity).
  assert (Hposter : layout d = Some "poster" -> canvas_size d = (1080, 1350)%Z)
    by (unfold canvas_size, read_layout; intros ->; reflexivity).
  assert (Ha4 : layout d = Some "a4" -> canvas_size d = (2480, 3508)%Z)
    by (unfold canvas_size, read_layout; intros ->; reflexivity).
  repeat (split; [assumption|]).
  split.
  - intros Hother; unfold canvas_size, read_layout.
    destruct (layout d) as [l|]; [|reflexivity].
    specialize (Hother l eq_refl).
    unfold dict_get, size_map; cbn [dict_lookup].
    repeat match goal with
           | |- context [String.eqb ?k l] =>
               destruct (String.eqb_spec k l) as [<-|_];
               [exfalso; apply Hother; simpl; tauto|]
           end.
    reflexivity.
  - destruct (build_steps_shape tool d Hshape)
      as (c & _ & Hlen & Hfirst & Hsteps).
    destruct (tool_variant_lengths tool (fst (canvas_size d))
                (snd (canvas_size d))) as [Hpre _].
    exists (fst (tool_variant tool (fst (canvas_size d)) (snd (canvas_size d)))
            ++ c
            ++ snd (tool_variant tool (fst (canvas_size d))
                      (snd (canvas_size d))))%list,
           (line_size (fst (canvas_size d)) (snd (canvas_size d))).
    split; [exact Hsteps|].
    split.
    { rewrite nth_error_app2 by (rewrite Hpre; auto).
      rewrite Hpre; cbn [Nat.sub].
      destruct c as [|l0 c]; [discriminate|].
      exact Hfirst. }
    split; [reflexivity|].
    split; intros Hl.
    + rewrite (Ha4 Hl); split; reflexivity.
    + rewrite (Hsquare Hl); split; reflexivity.
Qed.

Lemma build_steps_canvas_size_witness :
  shape_ok (_detect_design "A4 flyer") = true /\
  exists steps,
    _build_steps "photoshop" (_detect_design "A4 flyer") = Ok steps /\
    nth_error steps 3 = Some "Create a new document sized 2480x3508 px.".
Proof.
  split; [reflexivity|].
  destruct (build_steps_canvas_size "photoshop" (_detect_design "A4 flyer")
              eq_refl)
    as (_ & _ & _ & _ & _ & steps & line & Hsteps & Hnth & _ & Ha4 & _).
  exists steps; split; [exact Hsteps|].
  rewrite Hnth; f_equal; exact (proj1 (Ha4 eq_refl)).
Defined.



(** C10.  The steps depend on the design dictionary only through the layout,
    the background style, the image position, the first and last font and
    the first two palette entries: two dictionaries on which these seven
    reads agree get the same result from [_build_steps], for every tool. *)
Theorem build_steps_reads_only (tool : string) (d1 d2 : DesignSpec) :
  read_layout d1 = read_layout d2 ->
  read_style d1 = read_style d2 ->
  read_position d1 = read_position d2 ->
  read_fonts d1 0 = read_fonts d2 0 ->
  read_fonts d1 (-1) = read_fonts d2 (-1) ->
  read_palette d1 0 = read_palette d2 0 ->
  read_palette d1 1 = read_palette d2 1 ->
  _build_steps tool d1 = _build_steps tool d2.
Proof.
  intros Hl Hs Hpos Hf0 Hf1 Hp0 Hp1.
  rewrite !build_steps_unfold.
  unfold canvas_size, common.
  now rewrite Hl, Hs, Hpos, Hf0, Hf1, Hp0, Hp1.
Qed.

Lemma build_steps_reads_only_witness :
  default_spec <> restyled_spec /\
  _build_steps "photoshop" default_spec
  = _build_steps "photoshop" restyled_spec.
Proof.
  split; [discriminate|].
  apply build_steps_reads_only; reflexivity.
Defined.

(* ------------------------------------------------------------------------- *)
(** ** The handlers *)

Lemma dict_lookup_setitem {V : Type} (m : dict V) (k : string) (v : V)
    (k' : string) :
  dict_lookup (dict_setitem m k v) k'
  = if String.eqb k k' then Some v else dict_lookup m k'.
Proof.
  induction m as [|[k0 v0] m IH]; cbn [dict_setitem dict_lookup].
  - reflexivity.
  - destruct (String.eqb_spec k0 k) as [->|Hne]; cbn [dict_lookup].
    + destruct (String.eqb k k'); reflexivity.
    + rewrite IH.
      destruct (String.eqb_spec k0 k') as [->|]; [|reflexivity].
      destruct (String.eqb_spec k k') as [->|]; [contradiction|reflexivity].
Qed.

(** The loop of [generate_guide] on a well-shaped dictionary: it ends, and
    the map then holds, under each lower-cased tool name, the steps of
    [_build_steps] for that lower-cased name; other keys are untouched. *)
Lemma steps_loop_lookup (detected : DesignSpec) (tools : list string) :
  shape_ok detected = true ->
  forall m, exists m',
    steps_loop tools detected m = Ok m' /\
    forall k,
      dict_lookup m' k =
      if existsb (String.eqb k) (map Str.lower tools)
      then match _build_steps k detected with
           | Ok s => Some s
           | Raise _ => None
           end
      else dict_lookup m k.
Proof.
  intros Hshape.
  induction tools as [|tool rest IH]; intros m; cbn [steps_loop map existsb].
  - exists m; split; reflexivity.
  - destruct (build_steps_shape (Str.lower tool) detected Hshape)
      as (c & _ & _ & _ & Hsteps).
    destruct (_build_steps (Str.lower tool) detected) as [s|e] eqn:Hs;
      [clear c Hsteps | discriminate].
    cbn [bind].
    destruct (IH (dict_setitem m (Str.lower tool) s)) as (m' & Hloop & Hm').
    exists m'; split; [exact Hloop|].
    intros k; rewrite Hm', dict_lookup_setitem.
    destruct (existsb (String.eqb k) (map Str.lower rest));
      [now rewrite orb_true_r|].
    rewrite orb_false_r, String.eqb_sym.
    destruct (String.eqb_spec k (Str.lower tool)) as [->|]; [|reflexivity].
    now rewrite Hs.
Qed.

Lemma guide_doc_ok (req : GuideRequest.t) :
  exists steps_map,
    steps_loop (GuideRequest.tools req)
      (_detect_design (GuideRequest.source_name req)) [] = Ok steps_map /\
    guide_doc req
    = Ok {| Guide.source_name := GuideRequest.source_name req;
            Guide.detected := _detect_design (GuideRequest.source_name req);
            Guide.steps := steps_map |}.
Proof.
  destruct (steps_loop_lookup _ (GuideRequest.tools req)
              (detect_shape (GuideRequest.source_name req)) [])
    as (steps_map & Hloop & _).
  exists steps_map; split; [exact Hloop|].
  unfold guide_doc; rewrite Hloop; reflexivity.
Qed.

(** The loop for any lower-casing [lower]: on a well-shaped dictionary it
    ends, and the map then holds, under each [lower tool], the steps of
    [_build_steps] for [lower tool]; other keys are untouched. *)
Lemma steps_loop_with_lookup (lower : string -> string)
    (detected : DesignSpec) (tools : list string) :
  shape_ok detected = true ->
  forall m, exists m',
    steps_loop_with lower tools detected m = Ok m' /\
    forall k,
      dict_lookup m' k =
      if existsb (String.eqb k) (map lower tools)
      then match _build_steps k detected with
           | Ok s => Some s
           | Raise _ => None
           end
      else dict_lookup m k.
Proof.
  intros Hshape.
  induction tools as [|tool rest IH]; intros m;
    cbn [steps_loop_with map existsb].
  - exists m; split; reflexivity.
  - destruct (build_steps_shape (lower tool) detected Hshape)
      as (c & _ & _ & _ & Hsteps).
    destruct (_build_steps (lower tool) detected) as [s|e] eqn:Hs;
      [clear c Hsteps | discriminate].
    cbn [bind].
    destruct (IH (dict_setitem m (lower tool) s)) as (m' & Hloop & Hm').
    exists m'; split; [exact Hloop|].
    intros k; rewrite Hm', dict_lookup_setitem.
    destruct (existsb (String.eqb k) (map lower rest));
      [now rewrite orb_true_r|].
    rewrite orb_false_r, String.eqb_sym.
    destruct (String.eqb_spec k (lower tool)) as [->|]; [|reflexivity].
    now rewrite Hs.
Qed.

Lemma steps_loop_with_Str_lower (tools : list string) (detected : DesignSpec) :
  forall m,
    steps_loop_with Str.lower tools detected m = steps_loop tools detected m.
Proof.
  induction tools as [|tool rest IH]; intros m;
    cbn [steps_loop_with steps_loop]; [reflexivity|].
  destruct (_build_steps (Str.lower tool) detected); cbn [bind];
    [apply IH | reflexivity].
Qed.

(** At [Str.lower] the handler with a parameter is [generate_guide]. *)
Lemma generate_guide_with_Str_lower {store Template : Type}
    (create_document :
       string -> document Template -> store -> result string * store)
    (req : GuideRequest.t) (st : store) :
  generate_guide_with Str.lower create_document req st
  = generate_guide create_document req st.
Proof.
  unfold generate_guide_with, generate_guide, guide_doc_with, guide_doc.
  now rewrite steps_loop_with_Str_lower.
Qed.

(** C4, as stated: [_build_steps] itself compares the tool string as given,
    so "Photoshop" takes the fallback branch and "photoshop" does not. *)
Lemma build_steps_case_sensitive :
  _build_steps "Photoshop" default_spec
  <> _build_steps (Str.lower "Photoshop") default_spec.
Proof. discriminate. Qed.

Section HandlerProperties.

Variables store Template : Type.
Variable create_document :
  string -> document Template -> store -> result string * store.

Variable lower : string -> string.

(** C4, amended.  [generate_guide] lower-cases each requested tool name
    before it calls [_build_steps] and before it uses the name as a key:
    for every tool [t] of the request the response holds, under
    [lower t], the steps of [_build_steps (lower t)] on the detected
    design.  This holds whatever function [lower] the lower-casing is. *)
Theorem generate_guide_lowers_tools (req : GuideRequest.t) (st : store)
    (t : string) :
  In t (GuideRequest.tools req) ->
  exists resp st' s,
    generate_guide_with lower create_document req st = (Ok resp, st') /\
    dict_lookup (GuideResponse.steps resp) (lower t) = Some s /\
    _build_steps (lower t)
      (_detect_design (GuideRequest.source_name req)) = Ok s.
Proof.
  intros Hin.
  set (detected := _detect_design (GuideRequest.source_name req)).
  destruct (steps_loop_with_lookup lower detected (GuideRequest.tools req)
              (detect_shape _) []) as (steps_map & Hloop & Hlookup).
  destruct (build_steps_shape (lower t) detected (detect_shape _))
    as (c & _ & _ & _ & Hsteps).
  unfold generate_guide_with, guide_doc_with; fold detected.
  rewrite Hloop; cbn [bind].
  destruct (create_document "guide" _ st) as [[i|e] st'];
    eexists _, st', _; (split; [reflexivity|]);
    cbn [GuideResponse.steps Guide.steps];
    (split; [|exact Hsteps]);
    rewrite Hlookup, Hsteps;
    (replace (existsb (String.eqb (lower t))
                (map lower (GuideRequest.tools req))) with true;
     [reflexivity|]);
    symmetry; apply existsb_exists; exists (lower t);
    (split; [now apply in_map | apply String.eqb_refl]).
Qed.

(** C8.  [generate_guide] always builds its guide document; when the store
    write of that document raises, the handler still returns a response,
    with no identifier and with the name, the detected design, the steps
    map and the image URL that it returns, next to the identifier, when
    the write succeeds. *)
Theorem generate_guide_swallows_store_failure (req : GuideRequest.t)
    (st : store) :
  exists doc,
    guide_doc req = Ok doc /\
    Guide.source_name doc = GuideRequest.source_name req /\
    Guide.detected doc = _detect_design (GuideRequest.source_name req) /\
    steps_loop (GuideRequest.tools req) (Guide.detected doc) []
    = Ok (Guide.steps doc) /\
    (forall e st',
       create_document "guide" (GuideDoc doc) st = (Raise e, st') ->
       generate_guide create_document req st
       = (Ok {| GuideResponse.id := None;
                GuideResponse.source_name := GuideRequest.source_name req;
                GuideResponse.detected := Guide.detected doc;
                GuideResponse.steps := Guide.steps doc;
                GuideResponse.image_url := GuideRequest.image_url req |},
          st')) /\
    (forall i st',
       create_document "guide" (GuideDoc doc) st = (Ok i, st') ->
       generate_guide create_document req st
       = (Ok {| GuideResponse.id := Some i;
                GuideResponse.source_name := GuideRequest.source_name req;
                GuideResponse.detected := Guide.detected doc;
                GuideResponse.steps := Guide.steps doc;
                GuideResponse.image_url := GuideRequest.image_url req |},
          st')).
Proof.
  destruct (guide_doc_ok req) as (steps_map & Hloop & Hdoc).
  eexists; split; [exact Hdoc|].
  cbn [Guide.source_name Guide.detected Guide.steps].
  repeat (split; [reflexivity || exact Hloop|]).
  split; intros r st' Hstore; unfold generate_guide;
    rewrite Hdoc, Hstore; reflexivity.
Qed.

(** C9.  [create_template] answers with the identifier of the store and
    the status "created" when the store write returns, and raises an HTTP
    error with status 500 and the text of the exception as detail when
    the store write raises. *)
Theorem create_template_outcome (payload : Template) (st st' : store)
    (out : result string) :
  create_document "template" (TemplateDoc payload) st = (out, st') ->
  create_template create_document payload st
  = (match out with
     | Ok template_id =>
         inr {| TemplateCreated.id := template_id;
                TemplateCreated.status := "created" |}
     | Raise e => inl {| status_code := 500; detail := exn_str e |}
     end, st').
Proof.
  intros Hstore; unfold create_template; rewrite Hstore.
  destruct out; reflexivity.
Qed.

End HandlerProperties.

Lemma generate_guide_lowers_tools_witness :
  In "Photoshop" ["Canva"; "Photoshop"] /\
  exists resp st' s,
    generate_guide_with Str.lower (@store_up unit)
      (GuideRequest.mk "Tech Robot Square Post" None ["Canva"; "Photoshop"]) tt
    = (Ok resp, st') /\
    dict_lookup (GuideResponse.steps resp) (Str.lower "Photoshop") = Some s /\
    _build_steps (Str.lower "Photoshop")
      (_detect_design "Tech Robot Square Post") = Ok s.
Proof.
  assert (Hin : In "Photoshop" ["Canva"; "Photoshop"]) by (simpl; auto).
  split; [exact Hin|].
  exact (generate_guide_lowers_tools unit unit store_up Str.lower
           (GuideRequest.mk "Tech Robot Square Post" None
              ["Canva"; "Photoshop"]) tt "Photoshop" Hin).
Defined.

Lemma generate_guide_swallows_store_failure_witness :
  exists doc,
    guide_doc (GuideRequest.mk "Modern Story" (Some "https://x/y.png")
                 ["canva"]) = Ok doc /\
    generate_guide (@store_down unit)
      (GuideRequest.mk "Modern Story" (Some "https://x/y.png") ["canva"]) tt
    = (Ok {| GuideResponse.id := None;
             GuideResponse.source_name := "Modern Story";
             GuideResponse.detected := Guide.detected doc;
             GuideResponse.steps := Guide.steps doc;
             GuideResponse.image_url := Some "https://x/y.png" |}, tt).
Proof.
  destruct (generate_guide_swallows_store_failure unit unit store_down
              (GuideRequest.mk "Modern Story" (Some "https://x/y.png")
                 ["canva"]) tt)
    as (doc & Hdoc & _ & _ & _ & Hfail & _).
  exists doc; split; [exact Hdoc|].
  exact (Hfail (Exception "database unavailable") tt eq_refl).
Defined.

Lemma create_template_outcome_witness :
  create_template (@store_up unit) tt tt
  = (inr {| TemplateCreated.id := "64f0c0ffee";
            TemplateCreated.status := "created" |}, tt) /\
  create_template (@store_down unit) tt tt
  = (inl {| status_code := 500; detail := "database unavailable" |}, tt).
Proof.
  split.
  - exact (create_template_outcome unit unit store_up tt tt tt
             (Ok "64f0c0ffee") eq_refl).
  - exact (create_template_outcome unit unit store_down tt tt tt
             (Raise (Exception "database unavailable")) eq_refl).
Defined.

(* ------------------------------------------------------------------------- *)
(** ** More on substring search *)

Lemma append_assoc' (a b c : string) : (a ++ b) ++ c = a ++ b ++ c.
Proof.
  induction a as [|x a IH]; cbn [append]; [reflexivity | now rewrite IH].
Qed.

Lemma lower_split (s a b : string) :
  Str.lower s = a ++ b ->
  exists s1 s2, s = s1 ++ s2 /\ Str.lower s1 = a /\ Str.lower s2 = b.
Proof.
  revert s; induction a as [|c a IH]; intros s H.
  - exists "", s; repeat split; assumption.
  - destruct s as [|c0 s]; [discriminate|].
    cbn [Str.lower append] in H; injection H as Hc Hs.
    destruct (IH _ Hs) as (s1 & s2 & -> & H1 & H2).
    exists (String c0 s1), s2; cbn [Str.lower append].
    now rewrite Hc, H1.
Qed.

Lemma contains_occurs_ci (k name : string) :
  Str.contains k (Str.lower name) = true -> occurs_ci k name.
Proof.
  intros H; apply contains_iff in H as (pre & post & H).
  destruct (lower_split _ _ _ H) as (s1 & s2 & -> & _ & H2).
  destruct (lower_split _ _ _ H2) as (mid & s3 & -> & Hmid & _).
  now exists s1, mid, s3.
Qed.

Lemma occurs_ci_iff (k name : string) :
  occurs_ci k name <-> Str.contains k (Str.lower name) = true.
Proof. split; [apply occurs_ci_contains | apply contains_occurs_ci]. Qed.

Lemma any_in_occurs (ks : list string) (name : string) :
  any_in ks (Str.lower name) = true <-> occurs_any ks name.
Proof.
  unfold any_in, occurs_any; rewrite existsb_exists.
  split; intros (k & Hin & Hk); exists k; split; trivial;
    now apply occurs_ci_iff.
Qed.

Lemma any_in_not_occurs (ks : list string) (name : string) :
  any_in ks (Str.lower name) = false <-> ~ occurs_any ks name.
Proof.
  rewrite <- any_in_occurs.
  destruct (any_in ks (Str.lower name)); split; congruence.
Qed.

Lemma contains_trans (a b s : string) :
  Str.contains a b = true -> Str.contains b s = true ->
  Str.contains a s = true.
Proof.
  intros Hab Hbs.
  apply contains_iff in Hab as (p1 & q1 & ->).
  apply contains_iff in Hbs as (p2 & q2 & ->).
  apply contains_iff; exists (p2 ++ p1), (q1 ++ q2).
  now rewrite !append_assoc'.
Qed.

(* ------------------------------------------------------------------------- *)
(** ** The detector: which names get which design *)

(** X1.  The detected layout is always one of story, square, a4 and poster,
    and the image entry of the structure says "top" exactly for the story
    layout and "center" for the three others. *)
Theorem detect_layout_and_position (name : string) :
  exists l pos bg img rest,
    layout (_detect_design name) = Some l /\
    In l ["story"; "square"; "a4"; "poster"] /\
    structure (_detect_design name) = Some (bg :: img :: rest) /\
    dict_lookup img "position" = Some pos /\
    (l = "story" -> pos = "top") /\ (l <> "story" -> pos = "center").
Proof.
  unfold _detect_design, detect_structure, detect_layout;
    cbn [layout structure].
  destruct (any_in story_keywords (Str.lower name));
    [|destruct (any_in square_keywords (Str.lower name));
      [|destruct (any_in a4_keywords (Str.lower name))]];
    eexists _, _, _, _, _;
    (split; [reflexivity|]); (split; [simpl; tauto|]);
    (split; [reflexivity|]); (split; [reflexivity|]);
    split; intros H; try reflexivity; try discriminate H; now elim H.
Qed.

(** X2.  The layout is "story" exactly when one of the story keywords occurs
    in the name, in whatever case. *)
Theorem detect_story_iff (name : string) :
  layout (_detect_design name) = Some "story"
  <-> occurs_any story_keywords name.
Proof.
  rewrite <- any_in_occurs.
  unfold _detect_design, detect_layout; cbn [layout].
  destruct (any_in story_keywords (Str.lower name));
    [|destruct (any_in square_keywords (Str.lower name));
      [|destruct (any_in a4_keywords (Str.lower name))]];
    split; congruence.
Qed.

(** X3.  The layout rules are tried in order and the first that matches
    wins: "square" needs a square keyword and no story keyword, "a4" an a4
    keyword and neither a story nor a square keyword, and "poster" is what is
    left when no layout keyword occurs at all. *)
Theorem detect_first_match_wins (name : string) :
  (layout (_detect_design name) = Some "square"
   <-> ~ occurs_any story_keywords name /\ occurs_any square_keywords name)
  /\
  (layout (_detect_design name) = Some "a4"
   <-> ~ occurs_any story_keywords name /\ ~ occurs_any square_keywords name
       /\ occurs_any a4_keywords name)
  /\
  (layout (_detect_design name) = Some "poster"
   <-> ~ occurs_any story_keywords name /\ ~ occurs_any square_keywords name
       /\ ~ occurs_any a4_keywords name).
Proof.
  rewrite <- !any_in_not_occurs, <- !any_in_occurs.
  unfold _detect_design, detect_layout; cbn [layout].
  destruct (any_in story_keywords (Str.lower name));
    destruct (any_in square_keywords (Str.lower name));
    destruct (any_in a4_keywords (Str.lower name));
    repeat split; intros; try congruence;
    repeat match goal with H : _ /\ _ |- _ => destruct H end;
    congruence.
Qed.

(** X4.  The keyword "instagram story" never decides anything: a name has
    layout "story" exactly when "story", "reel" or "vertical" occurs in it. *)
Theorem detect_instagram_story_redundant (name : string) :
  layout (_detect_design name) = Some "story"
  <-> occurs_any ["story"; "reel"; "vertical"] name.
Proof.
  rewrite <- any_in_occurs.
  assert (Heq : any_in story_keywords (Str.lower name)
                = any_in ["story"; "reel"; "vertical"] (Str.lower name)).
  { unfold any_in, story_keywords; cbn [existsb].
    destruct (Str.contains "instagram story" (Str.lower name)) eqn:Hi.
    - rewrite (contains_trans "story" "instagram story" _ eq_refl Hi).
      reflexivity.
    - now rewrite !orb_false_r. }
  rewrite <- Heq.
  unfold _detect_design, detect_layout; cbn [layout].
  destruct (any_in story_keywords (Str.lower name));
    [|destruct (any_in square_keywords (Str.lower name));
      [|destruct (any_in a4_keywords (Str.lower name))]];
    split; congruence.
Qed.

(** X5.  A name in which the word "poster" occurs is never detected as a
    poster: "post" is a square keyword, so the layout is "story" or
    "square". *)
Theorem detect_poster_word_not_poster (name : string) :
  occurs_ci "poster" name ->
  layout (_detect_design name) = Some "story"
  \/ layout (_detect_design name) = Some "square".
Proof.
  intros H; apply occurs_ci_iff in H.
  pose proof (contains_trans "post" "poster" _ eq_refl H) as Hpost.
  assert (Hsq : any_in square_keywords (Str.lower name) = true)
    by (apply (any_in_intro _ "post"); [simpl; auto | exact Hpost]).
  unfold _detect_design, detect_layout; cbn [layout]; rewrite Hsq.
  destruct (any_in story_keywords (Str.lower name)); auto.
Qed.

Lemma detect_poster_word_not_poster_witness :
  occurs_ci "poster" "Summer Sale POSTER" /\
  (layout (_detect_design "Summer Sale POSTER") = Some "story"
   \/ layout (_detect_design "Summer Sale POSTER") = Some "square").
Proof.
  assert (H : occurs_ci "poster" "Summer Sale POSTER").
  { exists "Summer Sale ", "POSTER", ""; split; reflexivity. }
  exact (conj H (detect_poster_word_not_poster _ H)).
Defined.

(** X6.  Detection ignores the case of letters: lower-casing the name first
    changes nothing, and two names that differ only in case get the same
    design. *)
Theorem detect_case_insensitive (name name' : string) :
  Str.lower name = Str.lower name' ->
  _detect_design name = _detect_design name'
  /\ _detect_design (Str.lower name) = _detect_design name.
Proof.
  intros H; unfold _detect_design.
  rewrite lower_idem, H; split; reflexivity.
Qed.

Lemma detect_case_insensitive_witness :
  Str.lower "Tech REEL" = Str.lower "tEcH reel" /\
  _detect_design "Tech REEL" = _detect_design "tEcH reel".
Proof.
  split; [reflexivity|].
  exact (proj1 (detect_case_insensitive "Tech REEL" "tEcH reel" eq_refl)).
Defined.

(** X7.  Palette, fonts and background are each decided by one keyword test:
    the dark palette exactly when "tech", "futur" or "robot" occurs, the
    Inter/Manrope pair exactly when "modern" or "tech" occurs, and the
    gradient background exactly when "grad" occurs; otherwise the other
    palette, the other pair and a solid background. *)
Theorem detect_palette_fonts_style (name : string) :
  exists bg rest,
    structure (_detect_design name) = Some (bg :: rest) /\
    (occurs_any palette_keywords name ->
     palette (_detect_design name) = Some palette_A) /\
    (~ occurs_any palette_keywords name ->
     palette (_detect_design name) = Some palette_B) /\
    (occurs_any ["modern"; "tech"] name ->
     fonts (_detect_design name) = Some fonts_A) /\
    (~ occurs_any ["modern"; "tech"] name ->
     fonts (_detect_design name) = Some fonts_B) /\
    (occurs_ci "grad" name -> dict_lookup bg "style" = Some "gradient") /\
    (~ occurs_ci "grad" name -> dict_lookup bg "style" = Some "solid").
Proof.
  eexists _, _; split; [reflexivity|].
  rewrite <- !any_in_occurs, occurs_ci_iff.
  unfold _detect_design, detect_structure; cbn [palette fonts dict_lookup].
  change (any_in ["modern"; "tech"] (Str.lower name))
    with (Str.contains "modern" (Str.lower name)
          || (Str.contains "tech" (Str.lower name) || false)).
  rewrite orb_false_r.
  destruct (any_in palette_keywords (Str.lower name));
    destruct (Str.contains "modern" (Str.lower name)
              || Str.contains "tech" (Str.lower name));
    destruct (Str.contains "grad" (Str.lower name));
    cbn; repeat split; intros; congruence.
Qed.

(* ------------------------------------------------------------------------- *)
(** ** Subscripts and the error monad *)

Lemma bind_ok_inv {A B : Type} (m : result A) (k : A -> result B) (b : B) :
  bind m k = Ok b -> exists a, m = Ok a /\ k a = Ok b.
Proof. destruct m as [a|e]; cbn; [eauto | discriminate]. Qed.

Lemma bind_raise_inv {A B : Type} (m : result A) (k : A -> result B)
    (e : exn) :
  bind m k = Raise e -> m = Raise e \/ exists a, m = Ok a /\ k a = Raise e.
Proof. destruct m as [a|e']; cbn; [eauto | intros [= ->]; auto]. Qed.

Lemma list_getitem_raise {A : Type} (l : list A) (i : Z) (e : exn) :
  list_getitem l i = Raise e -> e = IndexError.
Proof.
  unfold list_getitem.
  destruct (_ || _); [congruence|].
  destruct (nth_error l _); congruence.
Qed.

Lemma list_getitem_0 {A : Type} (a : A) (l : list A) :
  list_getitem (a :: l) 0 = Ok a.
Proof.
  unfold list_getitem; cbn [length Z.ltb Z.compare].
  replace (Z.of_nat (S (length l)) <=? 0)%Z with false
    by (symmetry; apply Z.leb_gt; lia).
  reflexivity.
Qed.

Lemma list_getitem_1 {A : Type} (a b : A) (l : list A) :
  list_getitem (a :: b :: l) 1 = Ok b.
Proof.
  unfold list_getitem; cbn [length Z.ltb Z.compare].
  replace (Z.of_nat (S (S (length l))) <=? 1)%Z with false
    by (symmetry; apply Z.leb_gt; lia).
  reflexivity.
Qed.

Lemma list_getitem_last {A : Type} (a : A) (l : list A) :
  list_getitem (a :: l) (-1) = Ok (last (a :: l) a).
Proof.
  unfold list_getitem.
  change (-1 <? 0)%Z with true; cbv iota.
  replace (-1 + Z.of_nat (length (a :: l)))%Z with (Z.of_nat (length l))
    by (cbn [length]; lia).
  replace (Z.of_nat (length l) <? 0)%Z with false
    by (symmetry; apply Z.ltb_ge; lia).
  replace (Z.of_nat (length (a :: l)) <=? Z.of_nat (length l))%Z with false
    by (symmetry; apply Z.leb_gt; cbn [length]; lia).
  rewrite Nat2Z.id; cbn [orb].
  assert (H : forall d, nth_error (a :: l) (length l) = Some (last (a :: l) d)).
  { clear; revert a; induction l as [|b l IH]; intros a d; [reflexivity|].
    cbn [length nth_error]; rewrite (IH b d); reflexivity. }
  now rewrite (H a).
Qed.

Lemma list_getitem_0_inv {A : Type} (l : list A) (a : A) :
  list_getitem l 0 = Ok a -> exists rest, l = a :: rest.
Proof.
  destruct l as [|a' rest]; [discriminate|].
  rewrite list_getitem_0; intros [= ->]; eauto.
Qed.

Lemma list_getitem_1_inv {A : Type} (l : list A) (b : A) :
  list_getitem l 1 = Ok b -> exists a rest, l = a :: b :: rest.
Proof.
  destruct l as [|a [|b' rest]]; [discriminate..|].
  rewrite list_getitem_1; intros [= ->]; eauto.
Qed.

Lemma dict_getitem_ok {V : Type} (d : dict V) (k : string) (v : V) :
  dict_getitem d k = Ok v <-> dict_lookup d k = Some v.
Proof.
  unfold dict_getitem; destruct (dict_lookup d k); split; congruence.
Qed.

Lemma dict_getitem_raise {V : Type} (d : dict V) (k : string) (e : exn) :
  dict_getitem d k = Raise e -> e = KeyError k.
Proof. unfold dict_getitem; destruct (dict_lookup d k); congruence. Qed.

Lemma field_raise {A : Type} (key : string) (v : option A) (e : exn) :
  field key v = Raise e -> e = KeyError key.
Proof. destruct v; cbn; congruence. Qed.

(* ------------------------------------------------------------------------- *)
(** ** The step builder on arbitrary dictionaries *)

Lemma readable_inv (d : DesignSpec) :
  readable d = true ->
  exists bg img srest f0 frest p0 p1 prest style pos,
    structure d = Some (bg :: img :: srest) /\
    fonts d = Some (f0 :: frest) /\
    palette d = Some (p0 :: p1 :: prest) /\
    dict_lookup bg "style" = Some style /\
    dict_lookup img "position" = Some pos.
Proof.
  unfold readable, has_key.
  destruct (structure d) as [[|bg [|img srest]]|]; try discriminate.
  destruct (fonts d) as [[|f0 frest]|]; try discriminate.
  destruct (palette d) as [[|p0 [|p1 prest]]|]; try discriminate.
  destruct (dict_lookup bg "style") as [style|] eqn:Hstyle; [|discriminate].
  destruct (dict_lookup img "position") as [pos|] eqn:Hpos; [|discriminate].
  intros _; exists bg, img, srest, f0, frest, p0, p1, prest, style, pos.
  repeat split; reflexivity || assumption.
Qed.

Lemma common_readable (d : DesignSpec) (w h : Z)
    (bg img : dict string) (srest : list (dict string))
    (f0 : string) (frest : list string) (p0 p1 : string)
    (prest : list string) (style pos : string) :
  structure d = Some (bg :: img :: srest) ->
  fonts d = Some (f0 :: frest) ->
  palette d = Some (p0 :: p1 :: prest) ->
  dict_lookup bg "style" = Some style ->
  dict_lookup img "position" = Some pos ->
  common d w h =
  Ok [ line_size w h;
       line_background (if String.eqb style "gradient"
                        then "a subtle radial gradient" else p0);
       line_image (if String.eqb pos "center"
                   then "centered" else "near the top");
       line_headline f0;
       line_subhead (last (f0 :: frest) f0);
       line_cta p1;
       line_export ].
Proof.
  intros Hs Hf Hp Hstyle Hpos.
  unfold common, read_style, read_position, read_palette, read_fonts.
  rewrite Hs, Hf, Hp; cbn [field bind].
  rewrite !list_getitem_0, !list_getitem_1, list_getitem_last.
  unfold dict_getitem; cbn [bind]; rewrite Hstyle, Hpos; cbn [bind].
  destruct (String.eqb style "gradient"); reflexivity.
Qed.

Lemma read_style_ok (d : DesignSpec) (style : string) :
  read_style d = Ok style ->
  exists bg rest,
    structure d = Some (bg :: rest) /\ dict_lookup bg "style" = Some style.
Proof.
  unfold read_style; intros H.
  apply bind_ok_inv in H as (s & Hs & H).
  apply bind_ok_inv in H as (bg & Hbg & H).
  destruct (structure d) as [s'|]; [|discriminate]; injection Hs as ->.
  apply list_getitem_0_inv in Hbg as (rest & ->).
  apply dict_getitem_ok in H; eauto.
Qed.

Lemma read_position_ok (d : DesignSpec) (pos : string) :
  read_position d = Ok pos ->
  exists bg img rest,
    structure d = Some (bg :: img :: rest)
    /\ dict_lookup img "position" = Some pos.
Proof.
  unfold read_position; intros H.
  apply bind_ok_inv in H as (s & Hs & H).
  apply bind_ok_inv in H as (img & Himg & H).
  destruct (structure d) as [s'|]; [|discriminate]; injection Hs as ->.
  apply list_getitem_1_inv in Himg as (bg & rest & ->).
  apply dict_getitem_ok in H; eauto.
Qed.

Lemma common_ok_readable (d : DesignSpec) (w h : Z) (c : list string) :
  common d w h = Ok c -> readable d = true.
Proof.
  unfold common; intros H.
  apply bind_ok_inv in H as (style & Hstyle & H).
  apply bind_ok_inv in H as (bgtext & _ & H).
  apply bind_ok_inv in H as (pos & Hpos & H).
  apply bind_ok_inv in H as (f0 & Hf0 & H).
  apply bind_ok_inv in H as (f1 & _ & H).
  apply bind_ok_inv in H as (p1 & Hp1 & _).
  apply read_style_ok in Hstyle as (bg & rest & Hs & Hstyle).
  apply read_position_ok in Hpos as (bg' & img & rest' & Hs' & Hpos).
  rewrite Hs in Hs'; injection Hs' as <- ->.
  unfold read_fonts in Hf0; apply bind_ok_inv in Hf0 as (f & Hf & Hf0).
  destruct (fonts d) as [f'|] eqn:Ef; [|discriminate]; injection Hf as ->.
  apply list_getitem_0_inv in Hf0 as (frest & ->).
  unfold read_palette in Hp1; apply bind_ok_inv in Hp1 as (p & Hp & Hp1).
  destruct (palette d) as [p'|] eqn:Ep; [|discriminate]; injection Hp as ->.
  apply list_getitem_1_inv in Hp1 as (p0 & prest & ->).
  unfold readable, has_key; rewrite Hs, Ef, Ep, Hstyle, Hpos; reflexivity.
Qed.

Lemma build_steps_ok_common (tool : string) (d : DesignSpec)
    (steps : list string) :
  _build_steps tool d = Ok steps ->
  exists c,
    common d (fst (canvas_size d)) (snd (canvas_size d)) = Ok c /\
    steps
    = (fst (tool_variant tool (fst (canvas_size d)) (snd (canvas_size d)))
       ++ c
       ++ snd (tool_variant tool (fst (canvas_size d))
                 (snd (canvas_size d))))%list.
Proof.
  rewrite build_steps_unfold; intros H.
  apply bind_ok_inv in H as (c & Hc & H).
  injection H as <-; eauto.
Qed.

Lemma common_length (d : DesignSpec) (w h : Z) (c : list string) :
  common d w h = Ok c ->
  length c = 7%nat /\ nth_error c 0 = Some (line_size w h).
Proof.
  intros H.
  destruct (readable_inv d (common_ok_readable _ _ _ _ H))
    as (bg & img & srest & f0 & frest & p0 & p1 & prest & style & pos
        & Hs & Hf & Hp & Hstyle & Hpos).
  rewrite (common_readable d w h _ _ _ _ _ _ _ _ _ _ Hs Hf Hp Hstyle Hpos)
    in H.
  injection H as <-; split; reflexivity.
Qed.

(** X8.  [_build_steps] returns a list of steps exactly on the readable
    dictionaries: a structure of at least two entries with a style in the
    first and a position in the second, at least one font, at least two
    palette entries.  On every other dictionary it raises. *)
Theorem build_steps_ok_iff (tool : string) (d : DesignSpec) :
  (exists steps, _build_steps tool d = Ok steps) <-> readable d = true.
Proof.
  split.
  - intros (steps & H).
    apply build_steps_ok_common in H as (c & Hc & _).
    exact (common_ok_readable _ _ _ _ Hc).
  - intros H.
    destruct (readable_inv d H)
      as (bg & img & srest & f0 & frest & p0 & p1 & prest & style & pos
          & Hs & Hf & Hp & Hstyle & Hpos).
    rewrite build_steps_unfold.
    rewrite (common_readable d _ _ _ _ _ _ _ _ _ _ _ _ Hs Hf Hp Hstyle Hpos).
    eexists; reflexivity.
Qed.

(** X9.  Whenever [_build_steps] returns, it returns twelve lines, of which
    the first three and the last two are the tool's, whatever the lengths of
    the lists in the dictionary. *)
Theorem build_steps_twelve (tool : string) (d : DesignSpec)
    (steps : list string) :
  _build_steps tool d = Ok steps ->
  length steps = 12%nat /\
  firstn 3 steps
  = fst (tool_variant tool (fst (canvas_size d)) (snd (canvas_size d))) /\
  skipn 10 steps
  = snd (tool_variant tool (fst (canvas_size d)) (snd (canvas_size d))).
Proof.
  intros H.
  apply build_steps_ok_common in H as (c & Hc & ->).
  apply common_length in Hc as [Hlen _].
  destruct (tool_variant_lengths tool (fst (canvas_size d))
              (snd (canvas_size d))) as [Hpre Hsuf].
  destruct (fst (tool_variant tool _ _)) as [|l0 [|l1 [|l2 [|? ?]]]];
    try discriminate.
  destruct (snd (tool_variant tool _ _)) as [|s0 [|s1 [|? ?]]];
    try discriminate.
  do 8 (destruct c as [|? c]; try discriminate).
  repeat split; reflexivity.
Qed.

Lemma build_steps_twelve_witness :
  _build_steps "illustrator" gradient_spec'
  = Ok [ "Open Illustrator.";
         "File > New (RGB).";
         "Use rectangles and Type tool; keep elements on separate layers.";
         "Create a new document sized 1080x1920 px.";
         "Set background to a subtle radial gradient.";
         "Place the main image near the top and size it proportionally.";
         "Add a bold headline using Inter and align left.";
         "Add supporting text with Inter and reduce tracking slightly.";
         "Create a call-to-action button using #E5E7EB and white text.";
         line_export;
         "Convert shapes to symbols for reusability.";
         "Save as AI and export PNG." ]
  /\ length
       [ "Open Illustrator.";
         "File > New (RGB).";
         "Use rectangles and Type tool; keep elements on separate layers.";
         "Create a new document sized 1080x1920 px.";
         "Set background to a subtle radial gradient.";
         "Place the main image near the top and size it proportionally.";
         "Add a bold headline using Inter and align left.";
         "Add supporting text with Inter and reduce tracking slightly.";
         "Create a call-to-action button using #E5E7EB and white text.";
         line_export;
         "Convert shapes to symbols for reusability.";
         "Save as AI and export PNG." ] = 12%nat.
Proof.
  split; [reflexivity|].
  exact (proj1 (build_steps_twelve "illustrator" gradient_spec' _ eq_refl)).
Defined.

Lemma read_style_raise (d : DesignSpec) (e : exn) :
  read_style d = Raise e -> subscript_error e.
Proof.
  unfold read_style, subscript_error; intros H.
  apply bind_raise_inv in H as [H|(s & _ & H)];
    [apply field_raise in H; right; exists "structure"; simpl; auto|].
  apply bind_raise_inv in H as [H|(b & _ & H)];
    [apply list_getitem_raise in H; auto|].
  apply dict_getitem_raise in H; right; exists "style"; simpl; auto.
Qed.

Lemma read_position_raise (d : DesignSpec) (e : exn) :
  read_position d = Raise e -> subscript_error e.
Proof.
  unfold read_position, subscript_error; intros H.
  apply bind_raise_inv in H as [H|(s & _ & H)];
    [apply field_raise in H; right; exists "structure"; simpl; auto|].
  apply bind_raise_inv in H as [H|(b & _ & H)];
    [apply list_getitem_raise in H; auto|].
  apply dict_getitem_raise in H; right; exists "position"; simpl; tauto.
Qed.

Lemma read_palette_raise (d : DesignSpec) (i : Z) (e : exn) :
  read_palette d i = Raise e -> subscript_error e.
Proof.
  unfold read_palette, subscript_error; intros H.
  apply bind_raise_inv in H as [H|(s & _ & H)];
    [apply field_raise in H; right; exists "palette"; simpl; tauto|].
  apply list_getitem_raise in H; auto.
Qed.

Lemma read_fonts_raise (d : DesignSpec) (i : Z) (e : exn) :
  read_fonts d i = Raise e -> subscript_error e.
Proof.
  unfold read_fonts, subscript_error; intros H.
  apply bind_raise_inv in H as [H|(s & _ & H)];
    [apply field_raise in H; right; exists "fonts"; simpl; tauto|].
  apply list_getitem_raise in H; auto.
Qed.

Lemma common_raise (d : DesignSpec) (w h : Z) (e : exn) :
  common d w h = Raise e -> subscript_error e.
Proof.
  unfold common; intros H.
  apply bind_raise_inv in H as [H|(style & _ & H)];
    [exact (read_style_raise _ _ H)|].
  apply bind_raise_inv in H as [H|(bg & _ & H)].
  { destruct (String.eqb style "gradient"); [discriminate|].
    exact (read_palette_raise _ _ _ H). }
  apply bind_raise_inv in H as [H|(pos & _ & H)];
    [exact (read_position_raise _ _ H)|].
  apply bind_raise_inv in H as [H|(f0 & _ & H)];
    [exact (read_fonts_raise _ _ _ H)|].
  apply bind_raise_inv in H as [H|(f1 & _ & H)];
    [exact (read_fonts_raise _ _ _ H)|].
  apply bind_raise_inv in H as [H|(p1 & _ & H)];
    [exact (read_palette_raise _ _ _ H)|].
  discriminate.
Qed.

(** X10.  When [_build_steps] raises, the exception comes from a subscript
    of the design dictionary: an [IndexError], or a [KeyError] for one of
    structure, style, position, palette and fonts.  The tool plays no part:
    every other tool raises the same exception on that dictionary. *)
Theorem build_steps_raises_from_subscripts (tool : string) (d : DesignSpec)
    (e : exn) :
  _build_steps tool d = Raise e ->
  subscript_error e /\ forall tool', _build_steps tool' d = Raise e.
Proof.
  rewrite build_steps_unfold; intros H.
  apply bind_raise_inv in H as [H|(c & _ & H)]; [|discriminate].
  split; [exact (common_raise _ _ _ _ H)|].
  intros tool'; rewrite build_steps_unfold, H; reflexivity.
Qed.

Lemma build_steps_raises_from_subscripts_witness :
  _build_steps "photoshop" one_colour_spec = Raise IndexError
  /\ _build_steps "canva" one_colour_spec = Raise IndexError.
Proof.
  split; [reflexivity|].
  exact (proj2 (build_steps_raises_from_subscripts "photoshop"
                  one_colour_spec IndexError eq_refl) "canva").
Defined.

(** X11.  The seven common lines do not depend on the tool: when
    [_build_steps] returns for one tool it returns for every other tool,
    and lines 3 to 9 of the two lists are the same. *)
Theorem build_steps_common_block (tool tool' : string) (d : DesignSpec)
    (steps : list string) :
  _build_steps tool d = Ok steps ->
  exists steps',
    _build_steps tool' d = Ok steps' /\
    firstn 7 (skipn 3 steps) = firstn 7 (skipn 3 steps') /\
    common d (fst (canvas_size d)) (snd (canvas_size d))
    = Ok (firstn 7 (skipn 3 steps)).
Proof.
  intros H.
  apply build_steps_ok_common in H as (c & Hc & ->).
  pose proof (common_length _ _ _ _ Hc) as [Hlen _].
  assert (Hblock : forall t,
    firstn 7 (skipn 3
      (fst (tool_variant t (fst (canvas_size d)) (snd (canvas_size d)))
       ++ c
       ++ snd (tool_variant t (fst (canvas_size d)) (snd (canvas_size d)))))
    = c).
  { intros t.
    destruct (tool_variant_lengths t (fst (canvas_size d))
                (snd (canvas_size d))) as [Hpre _].
    destruct (fst (tool_variant t _ _)) as [|l0 [|l1 [|l2 [|? ?]]]];
      try discriminate.
    cbn [app skipn].
    rewrite firstn_app, <- Hlen, firstn_all, Nat.sub_diag.
    cbn [firstn]; apply app_nil_r. }
  eexists; split; [rewrite build_steps_unfold, Hc; reflexivity|].
  rewrite !Hblock; split; [reflexivity | exact Hc].
Qed.

Lemma build_steps_common_block_witness :
  exists steps',
    _build_steps "canva" gradient_spec = Ok steps' /\
    firstn 7 (skipn 3 steps')
    = [ "Create a new document sized 1080x1920 px.";
        "Set background to a subtle radial gradient.";
        "Place the main image near the top and size it proportionally.";
        "Add a bold headline using Inter and align left.";
        "Add supporting text with Inter and reduce tracking slightly.";
        "Create a call-to-action button using #E5E7EB and white text.";
        line_export ].
Proof.
  destruct (build_steps_common_block "photoshop" "canva" gradient_spec _
              eq_refl) as (steps' & Hsteps & Heq & _).
  exists steps'; split; [exact Hsteps|].
  rewrite <- Heq; reflexivity.
Defined.

(** X12.  The canvas is always one of the four sizes of the table, whatever
    the layout entry holds; it is never wider than it is high. *)
Theorem canvas_size_range (d : DesignSpec) :
  In (canvas_size d)
     [(1080, 1920); (1080, 1080); (1080, 1350); (2480, 3508)]%Z
  /\ (0 < fst (canvas_size d) <= snd (canvas_size d))%Z.
Proof.
  unfold canvas_size, dict_get, size_map; cbn [dict_lookup].
  repeat match goal with
         | |- context [String.eqb ?k ?l] => destruct (String.eqb k l)
         end;
    cbn [fst snd In]; (split; [tauto | lia]).
Qed.

(** X13.  A layout entry that is not "story", "square" or "a4", and a
    missing one, count as "poster": the steps are those of the same
    dictionary with layout "poster". *)
Theorem build_steps_unknown_layout (tool : string) (d : DesignSpec)
    (l : string) :
  ~ In l ["story"; "square"; "a4"] ->
  _build_steps tool (with_layout d (Some l))
  = _build_steps tool (with_layout d (Some "poster"))
  /\ _build_steps tool (with_layout d None)
     = _build_steps tool (with_layout d (Some "poster")).
Proof.
  intros Hl.
  assert (Hsize : canvas_size (with_layout d (Some l)) = (1080, 1350)%Z).
  { unfold canvas_size, dict_get, size_map, read_layout;
      cbn [with_layout layout dict_lookup].
    repeat match goal with
           | |- context [String.eqb ?k l] =>
               destruct (String.eqb_spec k l) as [<-|_];
               [try reflexivity; exfalso; apply Hl; simpl; tauto|]
           end.
    reflexivity. }
  rewrite !build_steps_unfold, Hsize.
  split; reflexivity.
Qed.

Lemma build_steps_unknown_layout_witness :
  ~ In "banner" ["story"; "square"; "a4"] /\
  _build_steps "canva" (with_layout default_spec (Some "banner"))
  = _build_steps "canva" (with_layout default_spec (Some "poster")).
Proof.
  assert (H : ~ In "banner" ["story"; "square"; "a4"]).
  { simpl; intros [H|[H|[H|[]]]]; discriminate H. }
  exact (conj H (proj1 (build_steps_unknown_layout "canva" default_spec
                          "banner" H))).
Defined.

(** X14.  Of the background style the steps keep only whether it is
    "gradient", and of the image position only whether it is "center"; with
    a gradient background the first palette entry is not read at all.  Two
    dictionaries that agree on the canvas size, on these two tests, on the
    first palette entry unless the background is a gradient, and on
    [fonts[0]], [fonts[-1]] and [palette[1]] get the same result. *)
Theorem build_steps_coarse_reads (tool : string) (d1 d2 : DesignSpec)
    (s1 s2 q1 q2 : string) :
  canvas_size d1 = canvas_size d2 ->
  read_style d1 = Ok s1 -> read_style d2 = Ok s2 ->
  String.eqb s1 "gradient" = String.eqb s2 "gradient" ->
  (String.eqb s1 "gradient" = false ->
   read_palette d1 0 = read_palette d2 0) ->
  read_position d1 = Ok q1 -> read_position d2 = Ok q2 ->
  String.eqb q1 "center" = String.eqb q2 "center" ->
  read_fonts d1 0 = read_fonts d2 0 ->
  read_fonts d1 (-1) = read_fonts d2 (-1) ->
  read_palette d1 1 = read_palette d2 1 ->
  _build_steps tool d1 = _build_steps tool d2.
Proof.
  intros Hsize Hs1 Hs2 Hs Hp0 Hq1 Hq2 Hq Hf0 Hf1 Hp1.
  rewrite !build_steps_unfold, Hsize.
  unfold common.
  rewrite Hs1, Hs2, Hq1, Hq2, Hf0, Hf1, Hp1; cbn [bind].
  rewrite <- Hs, <- Hq.
  destruct (String.eqb s1 "gradient"); [reflexivity|].
  now rewrite Hp0.
Qed.

Lemma build_steps_coarse_reads_witness :
  read_palette gradient_spec 0 <> read_palette gradient_spec' 0 /\
  read_position gradient_spec <> read_position gradient_spec' /\
  _build_steps "canva" gradient_spec = _build_steps "canva" gradient_spec'.
Proof.
  split; [discriminate|].
  split; [discriminate|].
  apply (build_steps_coarse_reads "canva" gradient_spec gradient_spec'
           "gradient" "gradient" "top" "bottom");
    reflexivity || discriminate.
Defined.

(** X15.  In the fallback branch the second line of the prefix and the first
    common line name the same canvas size, the one looked up from the
    layout. *)
Theorem build_steps_canva_sizes_agree (tool : string) (d : DesignSpec)
    (steps : list string) :
  tool <> "photoshop" -> tool <> "illustrator" ->
  _build_steps tool d = Ok steps ->
  nth_error steps 1
  = Some ("Create a custom size " ++ Str.of_int (fst (canvas_size d)) ++ "x"
          ++ Str.of_int (snd (canvas_size d)) ++ ".") /\
  nth_error steps 3
  = Some ("Create a new document sized " ++ Str.of_int (fst (canvas_size d))
          ++ "x" ++ Str.of_int (snd (canvas_size d)) ++ " px.").
Proof.
  intros Hp Hi H.
  apply build_steps_ok_common in H as (c & Hc & ->).
  apply common_length in Hc as [_ Hfirst].
  rewrite (tool_variant_fallback tool _ _ Hp Hi).
  destruct c as [|l0 c]; [discriminate|].
  injection Hfirst as ->.
  split; reflexivity.
Qed.

Lemma build_steps_canva_sizes_agree_witness :
  nth_error
    [ "Open Canva.";
      "Create a custom size 2480x3508.";
      "Add a gradient or color rectangle as background.";
      "Create a new document sized 2480x3508 px.";
      "Set background to #111827.";
      "Place the main image centered and size it proportionally.";
      "Add a bold headline using Poppins and align left.";
      "Add supporting text with Montserrat and reduce tracking slightly.";
      "Create a call-to-action button using #E5E7EB and white text.";
      line_export;
      "Use Position > Tidy up to align elements.";
      "Download PNG and save the design as a template." ] 1
  = Some "Create a custom size 2480x3508.".
Proof.
  refine (proj1 (build_steps_canva_sizes_agree "figma"
                   (_detect_design "A4 flyer") _ _ _ eq_refl));
    discriminate.
Defined.

(* ------------------------------------------------------------------------- *)
(** ** From the name to the steps *)

Lemma layout_is_story (n : string) :
  String.eqb (detect_layout n) "story" = any_in story_keywords n.
Proof.
  unfold detect_layout.
  destruct (any_in story_keywords n); [reflexivity|].
  destruct (any_in square_keywords n); [reflexivity|].
  destruct (any_in a4_keywords n); reflexivity.
Qed.

(** The common block for a detected design, in closed form. *)
Lemma detect_common (name : string) (w h : Z) :
  common (_detect_design name) w h
  = Ok [ line_size w h;
         line_background
           (if Str.contains "grad" (Str.lower name)
            then "a subtle radial gradient"
            else if any_in palette_keywords (Str.lower name)
                 then "#0B0F1A" else "#111827");
         line_image
           (if any_in story_keywords (Str.lower name)
            then "near the top" else "centered");
         line_headline
           (if Str.contains "modern" (Str.lower name)
               || Str.contains "tech" (Str.lower name)
            then "Inter" else "Poppins");
         line_subhead
           (if Str.contains "modern" (Str.lower name)
               || Str.contains "tech" (Str.lower name)
            then "Manrope" else "Montserrat");
         line_cta
           (if any_in palette_keywords (Str.lower name)
            then "#FF7A00" else "#E5E7EB");
         line_export ].
Proof.
  unfold _detect_design, detect_structure.
  rewrite layout_is_story.
  generalize (detect_layout (Str.lower name)); intros l.
  destruct (any_in story_keywords (Str.lower name));
    destruct (any_in palette_keywords (Str.lower name));
    destruct (Str.contains "modern" (Str.lower name)
              || Str.contains "tech" (Str.lower name));
    destruct (Str.contains "grad" (Str.lower name));
    reflexivity.
Qed.

(** X16.  The steps follow the detection, for every name and tool: a story
    keyword gives the 1080x1920 canvas and the image near the top, no story
    keyword gives a centred image; "grad" gives the gradient background, and
    without it the background is the first colour of the detected
    palette. *)
Theorem steps_follow_detection (name tool : string) :
  exists steps,
    _build_steps tool (_detect_design name) = Ok steps /\
    (occurs_any story_keywords name ->
     nth_error steps 3 = Some "Create a new document sized 1080x1920 px." /\
     nth_error steps 5
     = Some "Place the main image near the top and size it proportionally.")
    /\
    (~ occurs_any story_keywords name ->
     nth_error steps 5
     = Some "Place the main image centered and size it proportionally.") /\
    (occurs_ci "grad" name ->
     nth_error steps 4 = Some "Set background to a subtle radial gradient.")
    /\
    (~ occurs_ci "grad" name ->
     (occurs_any palette_keywords name ->
      nth_error steps 4 = Some "Set background to #0B0F1A.") /\
     (~ occurs_any palette_keywords name ->
      nth_error steps 4 = Some "Set background to #111827.")).
Proof.
  pose proof (any_in_occurs story_keywords name) as Hs.
  pose proof (any_in_occurs palette_keywords name) as Hp.
  pose proof (occurs_ci_iff "grad" name) as Hg.
  assert (Hsize : any_in story_keywords (Str.lower name) = true ->
                  canvas_size (_detect_design name) = (1080, 1920)%Z).
  { unfold canvas_size, read_layout, _detect_design, detect_layout;
      cbn [layout]; intros ->; reflexivity. }
  rewrite build_steps_unfold, detect_common; cbn [bind].
  destruct (tool_variant_lengths tool
              (fst (canvas_size (_detect_design name)))
              (snd (canvas_size (_detect_design name)))) as [Hpre _].
  destruct (fst (tool_variant tool _ _)) as [|l0 [|l1 [|l2 [|? ?]]]];
    try discriminate.
  eexists; split; [reflexivity|]; cbn [app nth_error].
  revert Hs Hp Hg Hsize.
  destruct (any_in story_keywords (Str.lower name));
    destruct (any_in palette_keywords (Str.lower name));
    destruct (Str.contains "grad" (Str.lower name));
    intros Hs Hp Hg Hsize;
    try rewrite (Hsize eq_refl);
    repeat match goal with
           | |- _ /\ _ => split
           | |- _ -> _ => intro
           end;
    try reflexivity; exfalso;
    match goal with
    | Hi : true = true <-> ?P, H : ~ ?P |- _ => apply H, Hi; reflexivity
    | Hi : false = true <-> ?P, H : ?P |- _ => apply Hi in H; discriminate H
    | Hi : ?P <-> true = true, H : ~ ?P |- _ => apply H, Hi; reflexivity
    | Hi : ?P <-> false = true, H : ?P |- _ => apply Hi in H; discriminate H
    end.
Qed.

(* ------------------------------------------------------------------------- *)
(** ** The steps map of [generate_guide] *)

Lemma dict_setitem_keys {V : Type} (m : dict V) (k : string) (v : V) :
  map fst (dict_setitem m k v)
  = if existsb (String.eqb k) (map fst m) then map fst m
    else (map fst m ++ [k])%list.
Proof.
  induction m as [|[k0 v0] m IH]; cbn [dict_setitem map fst existsb].
  - reflexivity.
  - rewrite (String.eqb_sym k k0).
    destruct (String.eqb k0 k); cbn [map fst orb]; [reflexivity|].
    rewrite IH.
    destruct (existsb (String.eqb k) (map fst m)); reflexivity.
Qed.

Lemma filter_filter {A : Type} (f g : A -> bool) (l : list A) :
  filter f (filter g l) = filter (fun x => g x && f x) l.
Proof.
  induction l as [|x l IH]; cbn [filter]; [reflexivity|].
  destruct (g x); cbn [filter andb]; rewrite IH; reflexivity.
Qed.

Lemma first_occurrences_in (l : list string) (x : string) :
  In x (first_occurrences l) <-> In x l.
Proof.
  induction l as [|y l IH]; cbn [first_occurrences In]; [tauto|].
  rewrite filter_In, IH, negb_true_iff, String.eqb_neq.
  destruct (string_dec y x); intuition congruence.
Qed.

Lemma first_occurrences_nodup (l : list string) :
  NoDup (first_occurrences l).
Proof.
  induction l as [|y l IH]; cbn [first_occurrences]; constructor.
  - rewrite filter_In, negb_true_iff, String.eqb_neq; tauto.
  - now apply NoDup_filter.
Qed.

Lemma first_occurrences_length (l : list string) :
  (length (first_occurrences l) <= length l)%nat.
Proof.
  induction l as [|y l IH]; cbn [first_occurrences length]; [lia|].
  pose proof (filter_length_le (fun z => negb (String.eqb z y))
                (first_occurrences l)).
  lia.
Qed.

Lemma dict_lookup_in {V : Type} (m : dict V) (k : string) (v : V) :
  NoDup (map fst m) -> In (k, v) m -> dict_lookup m k = Some v.
Proof.
  induction m as [|[k0 v0] m IH]; cbn [map fst dict_lookup In]; [tauto|].
  intros Hnd [[= -> ->]|Hin].
  - now rewrite String.eqb_refl.
  - inversion Hnd as [|? ? Hnotin Hnd']; subst.
    destruct (String.eqb_spec k0 k) as [->|]; [|now apply IH].
    exfalso; apply Hnotin; now apply (in_map fst _ (k, v)).
Qed.

Lemma build_steps_ok_length (tool : string) (d : DesignSpec)
    (steps : list string) :
  _build_steps tool d = Ok steps -> length steps = 12%nat.
Proof.
  intros H.
  apply build_steps_ok_common in H as (c & Hc & ->).
  apply common_length in Hc as [Hlen _].
  destruct (tool_variant_lengths tool (fst (canvas_size d))
              (snd (canvas_size d))) as [Hpre Hsuf].
  now rewrite !length_app, Hpre, Hsuf, Hlen.
Qed.

Lemma steps_loop_lower (detected : DesignSpec) (tools : list string) :
  forall m,
    steps_loop (map Str.lower tools) detected m = steps_loop tools detected m.
Proof.
  induction tools as [|tool rest IH]; intros m; cbn [map steps_loop];
    [reflexivity|].
  rewrite lower_idem.
  destruct (_build_steps (Str.lower tool) detected); cbn [bind];
    [apply IH | reflexivity].
Qed.

Lemma steps_loop_with_keys (lower : string -> string)
    (detected : DesignSpec) (tools : list string) :
  forall m m',
    steps_loop_with lower tools detected m = Ok m' ->
    map fst m'
    = (map fst m
       ++ filter (fun k => negb (existsb (String.eqb k) (map fst m)))
            (first_occurrences (map lower tools)))%list.
Proof.
  induction tools as [|tool rest IH]; intros m m' H;
    cbn [steps_loop_with map first_occurrences filter] in *.
  - injection H as <-; now rewrite app_nil_r.
  - apply bind_ok_inv in H as (s & _ & H).
    rewrite (IH _ _ H), dict_setitem_keys, filter_filter.
    destruct (existsb (String.eqb (lower tool)) (map fst m)) eqn:Ein;
      cbn [negb].
    + f_equal; apply filter_ext_in; intros k _.
      destruct (String.eqb_spec k (lower tool)) as [->|];
        [now rewrite Ein | reflexivity].
    + rewrite <- app_assoc; cbn [app]; do 2 f_equal.
      apply filter_ext; intros k.
      rewrite existsb_app; cbn [existsb].
      rewrite orb_false_r, negb_orb, andb_comm; reflexivity.
Qed.

(** The keys of the map that the loop fills from the empty map. *)
Lemma steps_loop_with_keys_empty (lower : string -> string)
    (detected : DesignSpec) (tools : list string) (m' : dict (list string)) :
  steps_loop_with lower tools detected [] = Ok m' ->
  map fst m' = first_occurrences (map lower tools).
Proof.
  intros H; rewrite (steps_loop_with_keys _ _ _ _ _ H);
    cbn [map app existsb negb].
  induction (first_occurrences _) as [|x l IH]; cbn [filter];
    [reflexivity | now rewrite IH].
Qed.

Section GuideProperties.

Variables store Template : Type.
Variable create_document :
  string -> document Template -> store -> result string * store.

Variable lower : string -> string.

(** X17.  The keys of the steps map are the lower-cased tool names without
    repetition, each at the place of its first occurrence in the request: no
    key occurs twice and there are at most as many entries as tools.  This
    holds whatever function [lower] the lower-casing is. *)
Theorem generate_guide_keys (req : GuideRequest.t) (st : store) :
  exists resp st',
    generate_guide_with lower create_document req st = (Ok resp, st') /\
    map fst (GuideResponse.steps resp)
    = first_occurrences (map lower (GuideRequest.tools req)) /\
    NoDup (map fst (GuideResponse.steps resp)) /\
    (length (GuideResponse.steps resp)
     <= length (GuideRequest.tools req))%nat.
Proof.
  destruct (steps_loop_with_lookup lower
              (_detect_design (GuideRequest.source_name req))
              (GuideRequest.tools req) (detect_shape _) [])
    as (steps_map & Hloop & _).
  pose proof (steps_loop_with_keys_empty _ _ _ _ Hloop) as Hkeys.
  unfold generate_guide_with, guide_doc_with; rewrite Hloop; cbn [bind].
  destruct (create_document "guide" _ st) as [[i|e] st'];
    eexists _, st'; (split; [reflexivity|]);
    cbn [GuideResponse.steps Guide.steps];
    rewrite <- (length_map fst steps_map), Hkeys;
    (split; [reflexivity|]);
    (split; [apply first_occurrences_nodup|]);
    rewrite <- (length_map lower (GuideRequest.tools req));
    apply first_occurrences_length.
Qed.

(** X18.  Every entry of the steps map holds, under a key that is the
    lower-casing of a requested tool, the twelve steps that [_build_steps]
    gives for that key on the detected design.  This holds whatever function
    [lower] the lower-casing is. *)
Theorem generate_guide_entries (req : GuideRequest.t) (st : store) :
  exists resp st',
    generate_guide_with lower create_document req st = (Ok resp, st') /\
    forall k v,
      In (k, v) (GuideResponse.steps resp) ->
      (exists t, In t (GuideRequest.tools req) /\ k = lower t) /\
      _build_steps k (_detect_design (GuideRequest.source_name req)) = Ok v /\
      length v = 12%nat.
Proof.
  set (detected := _detect_design (GuideRequest.source_name req)).
  destruct (steps_loop_with_lookup lower detected (GuideRequest.tools req)
              (detect_shape _) []) as (steps_map & Hloop & Hlookup).
  pose proof (steps_loop_with_keys_empty _ _ _ _ Hloop) as Hkeys.
  assert (Hentries : forall k v, In (k, v) steps_map ->
            (exists t, In t (GuideRequest.tools req) /\ k = lower t) /\
            _build_steps k detected = Ok v /\ length v = 12%nat).
  { intros k v Hin.
    assert (Hk : In k (map lower (GuideRequest.tools req))).
    { apply first_occurrences_in; rewrite <- Hkeys.
      now apply (in_map fst _ (k, v)). }
    pose proof (dict_lookup_in steps_map k v) as Hl.
    rewrite Hkeys in Hl.
    specialize (Hl (first_occurrences_nodup _) Hin).
    rewrite Hlookup in Hl.
    replace (existsb (String.eqb k) (map lower (GuideRequest.tools req)))
      with true in Hl
      by (symmetry; apply existsb_exists; exists k;
          split; [exact Hk | apply String.eqb_refl]).
    destruct (_build_steps k detected) as [s|e] eqn:Hs; [|discriminate].
    injection Hl as ->.
    apply in_map_iff in Hk as (t & <- & Ht).
    split; [now exists t|].
    split; [reflexivity | exact (build_steps_ok_length _ _ _ Hs)]. }
  unfold generate_guide_with, guide_doc_with; fold detected;
    rewrite Hloop; cbn [bind].
  destruct (create_document "guide" _ st) as [[i|e] st'];
    eexists _, st'; (split; [reflexivity|]); exact Hentries.
Qed.

(** X19.  Only the lower-cased tool names of a request matter: two requests
    with the same name and image URL whose tool lists agree up to the case of
    letters get the same response, and leave the store in the same state. *)
Theorem generate_guide_tools_case (name : string) (url : option string)
    (tools tools' : list string) (st : store) :
  map Str.lower tools = map Str.lower tools' ->
  generate_guide create_document (GuideRequest.mk name url tools) st
  = generate_guide create_document (GuideRequest.mk name url tools') st.
Proof.
  intros H.
  unfold generate_guide, guide_doc;
    cbn [GuideRequest.source_name GuideRequest.tools GuideRequest.image_url].
  rewrite <- (steps_loop_lower _ tools), <- (steps_loop_lower _ tools'), H.
  reflexivity.
Qed.

(** X20.  A request that names no tools gets the steps of photoshop, canva
    and illustrator, in this order, each built on the detected design. *)
Theorem generate_guide_default_tools (name : string) (url : option string)
    (st : store) :
  exists resp st' s1 s2 s3,
    generate_guide create_document (parse_guide_request name url None) st
    = (Ok resp, st') /\
    GuideResponse.steps resp
    = [("photoshop", s1); ("canva", s2); ("illustrator", s3)] /\
    _build_steps "photoshop" (_detect_design name) = Ok s1 /\
    _build_steps "canva" (_detect_design name) = Ok s2 /\
    _build_steps "illustrator" (_detect_design name) = Ok s3 /\
    nth_error s1 0 = Some "Open Photoshop." /\
    nth_error s2 0 = Some "Open Canva." /\
    nth_error s3 0 = Some "Open Illustrator.".
Proof.
  set (d := _detect_design name).
  destruct (build_steps_shape "photoshop" d (detect_shape name))
    as (c1 & _ & _ & _ & H1).
  destruct (build_steps_shape "canva" d (detect_shape name))
    as (c2 & _ & _ & _ & H2).
  destruct (build_steps_shape "illustrator" d (detect_shape name))
    as (c3 & _ & _ & _ & H3).
  destruct (_build_steps "photoshop" d) as [s1|] eqn:E1; [|discriminate].
  destruct (_build_steps "canva" d) as [s2|] eqn:E2; [|discriminate].
  destruct (_build_steps "illustrator" d) as [s3|] eqn:E3; [|discriminate].
  injection H1 as H1; injection H2 as H2; injection H3 as H3.
  assert (Hdoc : guide_doc (parse_guide_request name url None)
                 = Ok {| Guide.source_name := name;
                         Guide.detected := d;
                         Guide.steps := [("photoshop", s1); ("canva", s2);
                                         ("illustrator", s3)] |}).
  { unfold guide_doc, parse_guide_request, default_tools;
      cbn [GuideRequest.source_name GuideRequest.tools steps_loop].
    change (Str.lower "photoshop") with "photoshop".
    change (Str.lower "canva") with "canva".
    change (Str.lower "illustrator") with "illustrator".
    fold d; rewrite E1, E2, E3; reflexivity. }
  unfold generate_guide; rewrite Hdoc.
  destruct (create_document "guide" _ st) as [[i|e] st'];
    eexists _, st', s1, s2, s3; (split; [reflexivity|]);
    cbn [GuideResponse.steps Guide.steps];
    subst s1 s2 s3; repeat (split; [reflexivity|]); reflexivity.
Qed.

End GuideProperties.

Lemma generate_guide_tools_case_witness :
  map Str.lower ["Canva"; "PHOTOSHOP"] = map Str.lower ["CANVA"; "photoshop"]
  /\ generate_guide (@store_up unit)
       (GuideRequest.mk "Tech reel" None ["Canva"; "PHOTOSHOP"]) tt
     = generate_guide (@store_up unit)
         (GuideRequest.mk "Tech reel" None ["CANVA"; "photoshop"]) tt.
Proof.
  split; [reflexivity|].
  exact (generate_guide_tools_case unit unit store_up "Tech reel" None
           ["Canva"; "PHOTOSHOP"] ["CANVA"; "photoshop"] tt eq_refl).
Defined.

(* ------------------------------------------------------------------------- *)
(** ** Listing the templates *)

Lemma dict_pop_value {V : Type} (d : dict V) (k : string) (default : V) :
  fst (dict_pop d k default)
  = match dict_lookup d k with Some v => v | None => default end.
Proof.
  induction d as [|[k0 v0] d IH]; cbn [dict_pop dict_lookup]; [reflexivity|].
  destruct (String.eqb k0 k); [reflexivity|].
  destruct (dict_pop d k default); exact IH.
Qed.

Lemma dict_pop_other {V : Type} (d : dict V) (k : string) (default : V)
    (k' : string) :
  k' <> k ->
  dict_lookup (snd (dict_pop d k default)) k' = dict_lookup d k'.
Proof.
  intros Hne.
  induction d as [|[k0 v0] d IH]; cbn [dict_pop dict_lookup]; [reflexivity|].
  destruct (String.eqb_spec k0 k) as [->|]; cbn [snd].
  - destruct (String.eqb_spec k k') as [<-|]; [contradiction | reflexivity].
  - destruct (dict_pop d k default) as [x r]; cbn [snd dict_lookup] in *.
    now rewrite IH.
Qed.

Lemma dict_lookup_not_key {V : Type} (d : dict V) (k : string) :
  ~ In k (map fst d) -> dict_lookup d k = None.
Proof.
  induction d as [|[k0 v0] d IH]; cbn [map fst In dict_lookup];
    [reflexivity|].
  intros H.
  destruct (String.eqb_spec k0 k) as [->|]; [tauto | apply IH; tauto].
Qed.

Lemma dict_pop_gone {V : Type} (d : dict V) (k : string) (default : V) :
  NoDup (map fst d) -> dict_lookup (snd (dict_pop d k default)) k = None.
Proof.
  induction d as [|[k0 v0] d IH]; cbn [dict_pop dict_lookup map fst];
    [reflexivity|].
  intros Hnd; inversion Hnd as [|? ? Hnotin Hnd']; subst.
  destruct (String.eqb_spec k0 k) as [->|Hne]; cbn [snd].
  - now apply dict_lookup_not_key.
  - destruct (dict_pop d k default) as [x r]; cbn [snd dict_lookup] in *.
    destruct (String.eqb_spec k0 k); [contradiction | now apply IH].
Qed.

Section TemplateProperties.

Variable store : Type.
Variable value : Type.
Variable py_str : value -> string.
Variable of_str : string -> value.
Variable get_documents :
  string -> dict value -> Z -> store -> result (list (dict value)) * store.

(** [str(s)] is [s] for a string [s]. *)
Hypothesis py_str_of_str : forall s, py_str (of_str s) = s.

(** [convert_id] gives a document an "id" entry that holds the text of its
    "_id", or the empty string when it has none; every other entry is kept,
    and "_id" itself is gone. *)
Lemma convert_id_lookup (d : dict value) :
  dict_lookup (convert_id py_str of_str d) "id"
  = Some (of_str (match dict_lookup d "_id" with
                  | Some oid => py_str oid
                  | None => ""
                  end)) /\
  (forall k, k <> "id" -> k <> "_id" ->
     dict_lookup (convert_id py_str of_str d) k = dict_lookup d k) /\
  (NoDup (map fst d) -> dict_lookup (convert_id py_str of_str d) "_id" = None).
Proof.
  unfold convert_id.
  pose proof (dict_pop_value d "_id" (of_str "")) as Hv.
  pose proof (dict_pop_other d "_id" (of_str "")) as Ho.
  pose proof (dict_pop_gone d "_id" (of_str "")) as Hg.
  destruct (dict_pop d "_id" (of_str "")) as [oid d']; cbn [fst snd] in *.
  repeat split.
  - rewrite dict_lookup_setitem, String.eqb_refl, Hv.
    destruct (dict_lookup d "_id"); [reflexivity | now rewrite py_str_of_str].
  - intros k Hid Hoid; rewrite dict_lookup_setitem.
    destruct (String.eqb_spec "id" k) as [<-|]; [contradiction|].
    now apply Ho.
  - intros Hnd; rewrite dict_lookup_setitem.
    change (String.eqb "id" "_id") with false; cbv iota.
    now apply Hg.
Qed.

(** X21.  [list_templates] asks the store for the templates with an empty
    filter and the given limit, 20 when none is given.  When the store
    raises, the handler raises an HTTP error with status 500 and the text of
    the exception.  When the store answers, the response has one item per
    document, in the same order; the item has an "id" entry with the text of
    the document's "_id", or the empty string when it has none, it keeps
    every other entry, and it has no "_id" entry any more. *)
Theorem list_templates_outcome (limit : option Z) (st st' : store)
    (out : result (list (dict value))) :
  get_documents "template" []
    (match limit with Some n => n | None => 20%Z end) st = (out, st') ->
  match out with
  | Ok docs =>
      exists its,
        list_templates py_str of_str get_documents limit st
        = (inr {| items := its |}, st') /\
        length its = length docs /\
        forall i d,
          nth_error docs i = Some d ->
          exists item,
            nth_error its i = Some item /\
            dict_lookup item "id"
            = Some (of_str (match dict_lookup d "_id" with
                            | Some oid => py_str oid
                            | None => ""
                            end)) /\
            (forall k, k <> "id" -> k <> "_id" ->
               dict_lookup item k = dict_lookup d k) /\
            (NoDup (map fst d) -> dict_lookup item "_id" = None)
  | Raise e =>
      list_templates py_str of_str get_documents limit st
      = (inl {| status_code := 500; detail := exn_str e |}, st')
  end.
Proof.
  intros H; unfold list_templates; rewrite H.
  destruct out as [docs|e]; [|reflexivity].
  eexists; split; [reflexivity|].
  split; [apply length_map|].
  intros i d Hd; exists (convert_id py_str of_str d).
  split; [now rewrite nth_error_map, Hd | apply convert_id_lookup].
Qed.

End TemplateProperties.

Example convert_id_two_documents :
  dict_lookup
    (convert_id (fun s : string => s) (fun s : string => s)
       [("name", "Draft"); ("id", "stale")]) "id" = Some "" /\
  dict_lookup
    (convert_id (fun s : string => s) (fun s : string => s)
       [("_id", "64f0c0ffee"); ("name", "Sale poster")]) "_id" = None.
Proof.
  split.
  - exact (proj1 (convert_id_lookup string (fun s => s) (fun s => s)
                    (fun s => eq_refl) [("name", "Draft"); ("id", "stale")])).
  - refine (proj2 (proj2 (convert_id_lookup string (fun s => s) (fun s => s)
                            (fun s => eq_refl)
                            [("_id", "64f0c0ffee"); ("name", "Sale poster")]))
              _).
    repeat constructor; simpl; intuition discriminate.
Defined.

Lemma list_templates_outcome_witness :
  list_templates (fun s : string => s) (fun s : string => s) no_templates
    None tt
  = (inl {| status_code := 500; detail := "database unavailable" |}, tt) /\
  exists its item,
    list_templates (fun s : string => s) (fun s : string => s) two_templates
      (Some 5%Z) tt = (inr {| items := its |}, tt) /\
    length its = 2%nat /\
    nth_error its 0 = Some item /\
    dict_lookup item "id" = Some "64f0c0ffee" /\
    dict_lookup item "name" = Some "Sale poster".
Proof.
  split.
  - exact (list_templates_outcome unit string (fun s => s) (fun s => s)
             no_templates (fun s => eq_refl) None tt tt
             (Raise (Exception "database unavailable")) eq_refl).
  - destruct (list_templates_outcome unit string (fun s => s) (fun s => s)
                two_templates (fun s => eq_refl) (Some 5%Z) tt tt _ eq_refl)
      as (its & Hits & Hlen & Hitem).
    destruct (Hitem 0%nat _ eq_refl) as (item & Hnth & Hid & Hother & _).
    exists its, item.
    split; [exact Hits|].
    split; [exact Hlen|].
    split; [exact Hnth|].
    split; [exact Hid | apply Hother; discriminate].
Defined.

(* ------------------------------------------------------------------------- *)
(** ** The diagnostic handler *)

(** X22.  The response of [test_database] lists at most ten collections,
    and only names that the database listed: the first ten when the name is
    read and the listing returns.  It lists none when there is no database
    handle, when reading the name raises and when the listing raises. *)
Theorem test_database_collections (db : option Database)
    (getenv : string -> option string) :
  (length (collections (test_database db getenv)) <= 10)%nat /\
  (forall c, In c (collections (test_database db getenv)) ->
     exists h cs, db = Some h /\ list_collection_names h = Ok cs /\ In c cs)
  /\
  (forall h cs, db = Some h -> list_collection_names h = Ok cs ->
     (exists nm, name_attr h = Ok nm) ->
     collections (test_database db getenv) = firstn 10 cs) /\
  (db = None -> collections (test_database db getenv) = []) /\
  (forall h e, db = Some h -> name_attr h = Raise e ->
     collections (test_database db getenv) = []) /\
  (forall h e, db = Some h -> list_collection_names h = Raise e ->
     collections (test_database db getenv) = []).
Proof.
  unfold test_database.
  destruct db as [h|]; cbn [collections set_database set_database_url
    set_database_name set_connection_status set_collections].
  - destruct (name_attr h) as [nm|e] eqn:Hn;
      [destruct (list_collection_names h) as [cs|e] eqn:Hl|];
      cbn [collections set_database set_database_url set_database_name
           set_connection_status set_collections length In].
    + split; [apply firstn_le_length|].
      split.
      { intros c Hc; exists h, cs; repeat split; trivial.
        rewrite <- (firstn_skipn 10 cs); apply in_or_app; now left. }
      split; [intros h' cs' [= <-] Hcs' _; congruence|].
      split; [discriminate|].
      split; intros h' e' [= <-] He'; congruence.
    + split; [lia|]; split; [contradiction|].
      split; [intros h' cs' [= <-] Hcs' _; congruence|].
      repeat split; reflexivity.
    + split; [lia|]; split; [contradiction|].
      split; [intros h' cs' [= <-] _ (nm & Hnm); congruence|].
      repeat split; reflexivity.
  - cbn [length In]; split; [lia|]; split; [contradiction|].
    split; [discriminate|].
    repeat split; reflexivity || discriminate.
Qed.

(** X23.  The fields [database_url] and [database_name] of the response
    tell only whether the two environment variables are set and not empty:
    they do not depend on the database handle, so neither "Configured" nor
    the name of the database is ever reported. *)
Theorem test_database_env_fields (db db' : option Database)
    (getenv : string -> option string) :
  database_url (test_database db getenv)
  = Some (if env_set getenv "DATABASE_URL" then "✅ Set" else "❌ Not Set") /\
  database_name (test_database db getenv)
  = Some (if env_set getenv "DATABASE_NAME" then "✅ Set" else "❌ Not Set") /\
  database_url (test_database db getenv)
  = database_url (test_database db' getenv) /\
  database_name (test_database db getenv)
  = database_name (test_database db' getenv) /\
  backend (test_database db getenv) = "✅ Running".
Proof.
  assert (H : forall o : option Database,
    database_url (test_database o getenv)
    = Some (if env_set getenv "DATABASE_URL" then "✅ Set" else "❌ Not Set")
    /\ database_name (test_database o getenv)
       = Some (if env_set getenv "DATABASE_NAME"
               then "✅ Set" else "❌ Not Set")
    /\ backend (test_database o getenv) = "✅ Running").
  { intros [h|]; unfold test_database;
      [destruct (name_attr h); [destruct (list_collection_names h)|]|];
      repeat split; reflexivity. }
  destruct (H db) as (Hu & Hn & Hb), (H db') as (Hu' & Hn' & _).
  repeat split; congruence.
Qed.
